(** * Quadrotor environment: termination, gate progress, reward and symbolic model

    A shallow embedding of the methods of
    [safe_control_gym/envs/gym_pybullet_drones/quadrotor.py] that decide the
    episode state machine ([reset], [_get_info], [_get_done], [_get_reward])
    and of the closed-form model built by [_setup_symbolic].

    Number representation.
    - Counters and gate indices are Python integers: [Z].
    - Values that are only compared (observed state against the bounds of the
      observation space, ray hit fractions, gate type codes) are binary64
      floats: [PrimFloat.float], whose comparisons are those of numpy
      (every comparison with NaN is false).
    - CasADi expressions and the quantities the reward derives from them denote
      real functions: they are interpreted over [R]; rounding of their numeric
      evaluation is outside the model.

    Modelling of the collaborators.  The physics engine (PyBullet) is an oracle:
    what it answers on one control step is an input of that step.  Exceptions are
    values of [result]. *)

From Stdlib Require Import String ZArith List Bool Lia QArith Reals Lra Floats.
Import ListNotations.

Set Warnings "-inexact-float".

Local Open Scope Z_scope.

(* ================================================================= *)
(** ** Enumerations, exceptions *)

(** [QuadType], [Task] and [Cost] are Python enums. *)
Inductive QuadType : Type := ONE_D | TWO_D | THREE_D.
Inductive Task : Type := STABILIZATION | TRAJ_TRACKING.
Inductive Cost : Type := RL_REWARD | QUADRATIC | COMPETITION.

(** The exceptions the modelled methods raise. *)
Inductive exn : Type := ValueError | IndexError | AssertionError.

Inductive result (A : Type) : Type :=
| Ok (a : A)
| Raise (e : exn).
Arguments Ok {A} a.
Arguments Raise {A} e.

Definition bind {A B : Type} (r : result A) (k : A -> result B) : result B :=
  match r with
  | Ok a => k a
  | Raise e => Raise e
  end.

Notation "x <- r ;; k" := (bind r (fun x => k))
  (at level 61, r at next level, right associativity).
Notation "' p <- r ;; k" := (bind r (fun x => match x with p => k end))
  (at level 61, p pattern, r at next level, right associativity).

(** Indexing of a Python list or of the first axis of a numpy array: a
    negative index counts from the end, anything out of range raises
    [IndexError]. *)
Definition np_index {A : Type} (l : list A) (i : Z) : result A :=
  let n := Z.of_nat (length l) in
  let j := if i <? 0 then i + n else i in
  if (0 <=? j) && (j <? n)
  then match nth_error l (Z.to_nat j) with
       | Some a => Ok a
       | None => Raise IndexError
       end
  else Raise IndexError.

(** Element-wise binary operation on two arrays of one shape.  Arrays of
    different lengths do not occur for the callers below (numpy would
    broadcast or raise); they give [None]. *)
Fixpoint elementwise {A B C : Type} (f : A -> B -> C)
         (xs : list A) (ys : list B) : option (list C) :=
  match xs, ys with
  | [], [] => Some []
  | x :: xs', y :: ys' =>
      match elementwise f xs' ys' with
      | Some zs => Some (f x y :: zs)
      | None => None
      end
  | _, _ => None
  end.

(** Dimensions fixed by the fidelity level ([nx, nu] in [_setup_symbolic]). *)
Definition nx (q : QuadType) : nat :=
  match q with ONE_D => 2 | TWO_D => 6 | THREE_D => 12 end%nat.

Definition nu (q : QuadType) : nat :=
  match q with ONE_D => 1 | TWO_D => 2 | THREE_D => 4 end%nat.

(* ================================================================= *)
(** ** [_get_done] *)

(** The attributes of [self] that [_get_done] reads. *)
Record done_attrs : Type := {
  d_QUAD_TYPE : QuadType;
  d_done_on_out_of_bound : bool;
  d_DONE_ON_COLLISION : bool;
  d_DONE_ON_COMPLETION : bool;
  d_state : list float;
  d_state_space_low : list float;
  d_state_space_high : list float;
  d_currently_collided : bool;
  d_task_completed : bool
}.

(** The out-of-bound mask of each fidelity level. *)
Definition mask (q : QuadType) : list Z :=
  match q with
  | ONE_D => [1; 0]
  | TWO_D => [1; 0; 1; 0; 1; 0]
  | THREE_D => [1; 0; 1; 0; 1; 0; 1; 1; 1; 0; 0; 0]
  end.

(** [np.any]: some entry is non-zero. *)
Definition np_any (l : list Z) : bool := existsb (fun z => negb (z =? 0)) l.

(** [np.any(np.logical_or(state < low, state > high) * mask)]. *)
Definition out_of_bound (s : done_attrs) : option bool :=
  match elementwise PrimFloat.ltb (d_state s) (d_state_space_low s),
        elementwise (fun x h => PrimFloat.ltb h x) (d_state s) (d_state_space_high s) with
  | Some below, Some above =>
      match elementwise orb below above with
      | Some oob =>
          match elementwise (fun (b : bool) m => Z.b2z b * m) oob (mask (d_QUAD_TYPE s)) with
          | Some masked => Some (np_any masked)
          | None => None
          end
      | None => None
      end
  | _, _ => None
  end.

Definition done_on_flags (s : done_attrs) : bool :=
  if d_DONE_ON_COLLISION s && d_currently_collided s then true
  else if d_DONE_ON_COMPLETION s && d_task_completed s then true
  else false.

Definition _get_done (s : done_attrs) : option bool :=
  if d_done_on_out_of_bound s then
    match out_of_bound s with
    | Some true => Some true
    | Some false => Some (done_on_flags s)
    | None => None
    end
  else Some (done_on_flags s).

(* ================================================================= *)
(** ** The maze: gates, obstacles and the per-episode attributes *)

(** A row of [GATES]: [x, y, z, roll, pitch, yaw, type]. *)
Record gate : Type := {
  g_x : float; g_y : float; g_z : float;
  g_roll : float; g_pitch : float; g_yaw : float;
  g_type : float
}.

(** A row of [OBSTACLES]: [x, y, z, roll, pitch, yaw]. *)
Record obstacle : Type := {
  o_x : float; o_y : float; o_z : float;
  o_roll : float; o_pitch : float; o_yaw : float
}.

(** Class attributes. *)
Definition GATE_Z_LOW : float := 0.525%float.
Definition GATE_Z_HIGH : float := 1.0%float.
Definition OBSTACLE_Z : float := 1.05%float.

(** What [__init__] fixes.  [GATES] and [OBSTACLES] are two-dimensional
    arrays, given by their rows.  [init_attr] reads the attribute
    [self.__dict__[name.upper()]] of an initial-state label. *)
Record env : Type := {
  QUAD_TYPE : QuadType;
  GATES : list gate;
  OBSTACLES : list obstacle;
  PYB_FREQ : Z;
  CTRL_FREQ : Z;
  RANDOMIZED_GATES_AND_OBS : bool;
  RANDOMIZED_INERTIAL_PROP : bool;
  RANDOMIZED_INIT : bool;
  nominal_prop_values : list float;
  init_attr : string -> float
}.

Definition NUM_GATES (e : env) : Z := Z.of_nat (length (GATES e)).

(** The attributes [reset] initialises and [_get_info] updates.
    [ray_tests] has no counterpart in the source: it counts the calls of
    [p.rayTestBatch] issued so far. *)
Record episode : Type := {
  current_gate : Z;
  stepped_through_gate : bool;
  currently_collided : bool;
  at_goal_pos : bool;
  steps_at_goal_pos : Z;
  task_completed : bool;
  _gates_pose : list (list float);
  ray_tests : nat
}.

(** What the physics engine answers during one call of [_get_info].
    - [pyb_step_counter]: the physics-step counter kept by the base class;
    - [contacts]: for each body of [GATES_IDS + OBSTACLES_IDS + [PLANE_ID]],
      in this order, its id and whether [getContactPoints] is non-empty;
    - [rays]: the hit fractions [r[2]] of the rays [rayTestBatch] returns for
      the aperture of the current gate (when it is asked);
    - [near_goal]: [norm(quad_xyz - goal_xyz) < stabilization_goal_tolerance]. *)
Record physics : Type := {
  pyb_step_counter : Z;
  contacts : list (Z * bool);
  rays : list float;
  near_goal : bool
}.

(** The entries of the info dictionary that depend on the episode attributes. *)
Record info : Type := {
  collision : option Z * bool;
  current_gate_id : Z;
  at_goal_position : bool;
  info_task_completed : bool
}.

(* ================================================================= *)
(** ** [_get_info] *)

(** The collision loop: the first body in contact, if any. *)
Definition first_contact (cs : list (Z * bool)) : option Z :=
  match find (fun c : Z * bool => snd c) cs with
  | Some c => Some (fst c)
  | None => None
  end.

(** [self.pyb_step_counter > 0.5 * self.PYB_FREQ and self.NUM_GATES > 0
     and self.current_gate < self.NUM_GATES]. *)
Definition gate_guard (e : env) (s : episode) (ph : physics) : bool :=
  negb (Qle_bool (inject_Z (pyb_step_counter ph)) ((1 # 2) * inject_Z (PYB_FREQ e)))
  && (0 <? NUM_GATES e)
  && (current_gate s <? NUM_GATES e).

(** Height class of a gate, by its type code. *)
Definition gate_height (g : gate) : result float :=
  if (g_type g =? 0)%float then Ok GATE_Z_HIGH
  else if (g_type g =? 1)%float then Ok GATE_Z_LOW
  else Raise ValueError.

(** [for r in rays: if r[2] < 0.9999: current_gate += 1;
     stepped_through_gate = True; break], from [stepped_through_gate = False]. *)
Fixpoint rays_loop (rs : list float) (cg : Z) : Z * bool :=
  match rs with
  | [] => (cg, false)
  | r :: rs' => if (r <? 0.9999)%float then (cg + 1, true) else rays_loop rs' cg
  end.

(** The gate-progress block. *)
Definition gates_progress (e : env) (s : episode) (ph : physics)
  : result (Z * bool * nat) :=
  if gate_guard e s ph then
    _ <- np_index (_gates_pose s) (current_gate s) ;;
    g <- np_index (GATES e) (current_gate s) ;;
    _ <- gate_height g ;;
    let '(cg, stepped) := rays_loop (rays ph) (current_gate s) in
    Ok (cg, stepped, S (ray_tests s))
  else Ok (current_gate s, stepped_through_gate s, ray_tests s).

(** The goal-arrival block, entered when [current_gate == NUM_GATES].  The
    comparison of the position with the goal is an input ([near_goal]): it
    is defined for the stabilisation task, where [X_GOAL] is one state; under
    trajectory tracking the 3D vehicle raises there, and the program does
    not return. *)
Definition goal_progress (e : env) (s : episode) (ph : physics) (cg : Z)
  : bool * Z * bool * bool * bool :=
  if cg =? NUM_GATES e then
    match QUAD_TYPE e with
    | THREE_D =>
        let '(agp, steps) :=
          if near_goal ph then (true, steps_at_goal_pos s + 1) else (false, 0) in
        let tc := if CTRL_FREQ e * 2 <? steps then true else task_completed s in
        (agp, steps, tc, agp, tc)
    | _ => (at_goal_pos s, steps_at_goal_pos s, task_completed s, false, false)
    end
  else (at_goal_pos s, steps_at_goal_pos s, task_completed s, false, false).

(** [_get_info]: the collision loop, the gate block, the reported gate id
    and the goal block.  The other entries of the dictionary (the
    mean-squared error, the poses and the visibility of the gates and of the
    obstacles) are not part of the result; they can raise on their own, as
    [self.GATES[:, :6]] does when [GATES] was given as an empty list.  The
    result describes the calls that return: what is proved of [_get_info]
    below is proved of a call that returned. *)
Definition _get_info (e : env) (s : episode) (ph : physics) : result (episode * info) :=
  let hit := first_contact (contacts ph) in
  let collided := match hit with Some _ => true | None => false end in
  '(cg, stepped, nrays) <- gates_progress e s ph ;;
  let '(agp, steps, tc, info_agp, info_tc) := goal_progress e s ph cg in
  Ok ({| current_gate := cg;
         stepped_through_gate := stepped;
         currently_collided := collided;
         at_goal_pos := agp;
         steps_at_goal_pos := steps;
         task_completed := tc;
         _gates_pose := _gates_pose s;
         ray_tests := nrays |},
      {| collision := (hit, collided);
         current_gate_id := if cg <? NUM_GATES e then cg else -1;
         at_goal_position := info_agp;
         info_task_completed := info_tc |}).

(* ================================================================= *)
(** ** [reset] *)

(** What the random source and the helpers of the base class return during
    one call of [reset]: the three draws made for the i-th obstacle and for
    the i-th gate, the randomised inertial properties, and
    [_randomize_values_by_info] on the initial-state dictionary. *)
Record reset_draws : Type := {
  obstacle_draws : nat -> float * float * float;
  gate_draws : nat -> float * float * float;
  randomized_prop_values : list float;
  randomize_init : list (string * float) -> list (string * float)
}.

(** The start pose handed to the physics engine. *)
Record init_kin : Type := {
  INIT_XYZ : list float;
  INIT_VEL : list float;
  INIT_RPY : list float;
  INIT_ANG_VEL : list float
}.

(** [offset] and [pose_disturbance] of one body of the maze. *)
Definition maze_offsets (randomized : bool) (draws : float * float * float)
           (height : float) : list float * list float :=
  if randomized then
    let '(d1, d2, d3) := draws in ([d1; d2; height], [0; 0; d3])%float
  else ([0; 0; height], [0; 0; 0])%float.

(** [list(np.array(b[0:3]) + offset) + list(np.array(b[3:6]) + pose_disturbance)]. *)
Definition disturbed_pose (xyz rpy : list float) (off : list float * list float)
  : list float :=
  (map (fun p : float * float => fst p + snd p)%float (combine xyz (fst off))
   ++ map (fun p : float * float => fst p + snd p)%float (combine rpy (snd off)))%list.

(** The obstacle loop; [obs_height = 0.525]. *)
Fixpoint load_obstacles (e : env) (dr : reset_draws) (i : nat) (os : list obstacle)
  : list (list float) :=
  match os with
  | [] => []
  | o :: os' =>
      disturbed_pose [o_x o; o_y o; o_z o] [o_roll o; o_pitch o; o_yaw o]
        (maze_offsets (RANDOMIZED_GATES_AND_OBS e) (obstacle_draws dr i) 0.525%float)
      :: load_obstacles e dr (S i) os'
  end.

(** [self.obstacle_poses = np.array(self.obstacle_poses);
     self.obstacle_poses[:, 2] = self.OBSTACLE_Z]: the array built from an
    empty list is one-dimensional and cannot be indexed on two axes. *)
Definition set_obstacle_z (poses : list (list float)) : result (list (list float)) :=
  match poses with
  | [] => Raise IndexError
  | _ =>
      Ok (map (fun row => match row with
                          | x :: y :: _ :: rest => x :: y :: OBSTACLE_Z :: rest
                          | _ => row
                          end) poses)
  end.

(** The gate loop: an unknown type code raises. *)
Fixpoint load_gates (e : env) (dr : reset_draws) (i : nat) (gs : list gate)
  : result (list (list float)) :=
  match gs with
  | [] => Ok []
  | g :: gs' =>
      h <- gate_height g ;;
      rest <- load_gates e dr (S i) gs' ;;
      Ok (disturbed_pose [g_x g; g_y g; g_z g] [g_roll g; g_pitch g; g_yaw g]
            (maze_offsets (RANDOMIZED_GATES_AND_OBS e) (gate_draws dr i) h)
          :: rest)
  end.

(** [INIT_STATE_LABELS]. *)
Definition INIT_STATE_LABELS (q : QuadType) : list string :=
  match q with
  | ONE_D => ["init_x"; "init_x_dot"]
  | TWO_D => ["init_x"; "init_x_dot"; "init_z"; "init_z_dot"; "init_theta"; "init_theta_dot"]
  | THREE_D => ["init_x"; "init_x_dot"; "init_y"; "init_y_dot"; "init_z"; "init_z_dot";
                "init_phi"; "init_theta"; "init_psi"; "init_p"; "init_q"; "init_r"]
  end%string.

(** [d.get(k, 0.0)] on a dictionary kept as an association list. *)
Fixpoint dict_get (d : list (string * float)) (k : string) : float :=
  match d with
  | [] => 0.0%float
  | (k', v) :: d' => if String.eqb k' k then v else dict_get d' k
  end.

(** The start pose of the configured (not gate-relative) branch. *)
Definition configured_init (e : env) (dr : reset_draws) : init_kin :=
  let init_values := map (fun name => (name, init_attr e name)) (INIT_STATE_LABELS (QUAD_TYPE e)) in
  let init_values := if RANDOMIZED_INIT e then randomize_init dr init_values else init_values in
  let get k := dict_get init_values k in
  {| INIT_XYZ := [get "init_x"; get "init_y"; get "init_z"]%string;
     INIT_VEL := [get "init_x_dot"; get "init_y_dot"; get "init_z_dot"]%string;
     INIT_RPY := [get "init_phi"; get "init_theta"; get "init_psi"]%string;
     INIT_ANG_VEL :=
       match QUAD_TYPE e with
       | TWO_D => [0%float; get "init_theta_dot"%string; 0%float]
       | _ => [get "init_p"; get "init_q"; get "init_r"]%string
       end |}.

(** The start pose, from [initial_target_gate_id]. *)
Definition initial_pose (e : env) (dr : reset_draws) (gates_pose : list (list float))
           (initial_target_gate_id : option Z) : result init_kin :=
  match initial_target_gate_id with
  | Some init_gate_id =>
      if negb (init_gate_id =? 0) then
        if init_gate_id <? NUM_GATES e then
          ref_gate_pose <- np_index gates_pose (init_gate_id - 1) ;;
          Ok {| INIT_XYZ := firstn 3 ref_gate_pose;
                INIT_VEL := [0; 0; 0]%float;
                INIT_RPY := firstn 3 (skipn 3 ref_gate_pose);
                INIT_ANG_VEL := [0; 0; 0]%float |}
        else Raise AssertionError
      else Ok (configured_init e dr)
  | None => Ok (configured_init e dr)
  end.

(** [reset] up to the calls that hand the start pose to the physics engine. *)
Definition reset_setup (e : env) (dr : reset_draws) (initial_target_gate_id : option Z)
  : result (episode * init_kin) :=
  _ <- set_obstacle_z (load_obstacles e dr 0 (OBSTACLES e)) ;;
  gates_pose <- load_gates e dr 0 (GATES e) ;;
  let cg := match initial_target_gate_id with Some g => g | None => 0 end in
  let prop_values :=
    if RANDOMIZED_INERTIAL_PROP e then randomized_prop_values dr
    else nominal_prop_values e in
  if RANDOMIZED_INERTIAL_PROP e && existsb (fun v => v <? 0)%float prop_values
  then Raise ValueError
  else
    k <- initial_pose e dr gates_pose initial_target_gate_id ;;
    Ok ({| current_gate := cg;
           stepped_through_gate := false;
           currently_collided := false;
           at_goal_pos := false;
           steps_at_goal_pos := 0;
           task_completed := false;
           _gates_pose := gates_pose;
           ray_tests := 0 |}, k).

(** [reset]: the set-up, then [_get_reset_info], which ends in [_get_info]. *)
Definition reset (e : env) (dr : reset_draws) (initial_target_gate_id : option Z)
           (ph : physics) : result (episode * init_kin * info) :=
  '(s, k) <- reset_setup e dr initial_target_gate_id ;;
  '(s', i) <- _get_info e s ph ;;
  Ok (s', k, i).

(** An episode after [reset]: one call of [_get_info] per control step. *)
Fixpoint run (e : env) (s : episode) (steps : list physics) : result episode :=
  match steps with
  | [] => Ok s
  | ph :: steps' =>
      '(s', _) <- _get_info e s ph ;;
      run e s' steps'
  end.

(* ================================================================= *)
(** ** [_setup_symbolic]: dynamics, observation and cost *)

Section Symbolic.
Local Open Scope R_scope.

(** The physical parameters [_setup_symbolic] reads: [m, g, l], the diagonal
    of [J], and [KM], [KF]. *)
Record quad_params : Type := {
  MASS : R;
  GRAVITY_ACC : R;
  L : R;
  Ixx : R;
  Iyy : R;
  Izz : R;
  KM : R;
  KF : R
}.

(** Column vectors and matrices of size three ([cs.vertcat], [cs.blockcat]
    by rows). *)
Definition vec3 : Type := R * R * R.
Definition mat3 : Type := vec3 * vec3 * vec3.

Definition dot3 (a b : vec3) : R :=
  let '(a1, a2, a3) := a in
  let '(b1, b2, b3) := b in
  a1 * b1 + a2 * b2 + a3 * b3.

Definition mat3_vec (M : mat3) (v : vec3) : vec3 :=
  let '(r1, r2, r3) := M in (dot3 r1 v, dot3 r2 v, dot3 r3 v).

Definition col3 (M : mat3) (j : nat) : vec3 :=
  let pick (r : vec3) := let '(a, b, c) := r in
                         match j with O => a | S O => b | _ => c end in
  let '(r1, r2, r3) := M in (pick r1, pick r2, pick r3).

Definition mat3_mul (A B : mat3) : mat3 :=
  let row (r : vec3) := (dot3 r (col3 B 0), dot3 r (col3 B 1), dot3 r (col3 B 2)) in
  let '(r1, r2, r3) := A in (row r1, row r2, row r3).

Definition vec3_sub (a b : vec3) : vec3 :=
  let '(a1, a2, a3) := a in
  let '(b1, b2, b3) := b in
  (a1 - b1, a2 - b2, a3 - b3).

Definition vec3_div (a : vec3) (c : R) : vec3 :=
  let '(a1, a2, a3) := a in (a1 / c, a2 / c, a3 / c).

(** [cs.skew]. *)
Definition skew (v : vec3) : mat3 :=
  let '(v1, v2, v3) := v in
  ((0, - v3, v2), (v3, 0, - v1), (- v2, v1, 0)).

Definition I3 : mat3 := ((1, 0, 0), (0, 1, 0), (0, 0, 1)).

(** Modelled from the spec: [csRotXYZ] of
    [safe_control_gym.math_and_models.transformations] is not among the
    sources.  It is the body-to-world rotation of the Euler-angle convention
    of the physics engine: the roll about x is applied first, then the pitch
    about y, then the yaw about z. *)
Definition csRotXYZ_sdf (phi theta psi : R) : mat3 :=
  let rx : mat3 := ((1, 0, 0), (0, cos phi, - sin phi), (0, sin phi, cos phi)) in
  let ry : mat3 := ((cos theta, 0, sin theta), (0, 1, 0), (- sin theta, 0, cos theta)) in
  let rz : mat3 := ((cos psi, - sin psi, 0), (sin psi, cos psi, 0), (0, 0, 1)) in
  mat3_mul (mat3_mul rz ry) rx.

(** Entry of a column vector, of a matrix given by rows. *)
Definition entry (v : list R) (i : nat) : R := nth i v 0.
Definition mentry (M : list (list R)) (i j : nat) : R := nth j (nth i M []) 0.

(** The rotation helper is a parameter of the dynamics. *)
Variable csRotXYZ : R -> R -> R -> mat3.

(** [X_dot], the dynamics equations, as a function of the values of the
    symbols in [X] and [U]: the real function the expression denotes (its
    evaluation in binary64 rounds every operation). *)
Definition X_dot (P : quad_params) (q : QuadType) (X U : list R) : list R :=
  let m := MASS P in
  let g := GRAVITY_ACC P in
  let l := L P in
  match q with
  | ONE_D =>
      let z := entry X 0 in
      let z_dot := entry X 1 in
      let T := entry U 0 in
      [z_dot; T / m - g]
  | TWO_D =>
      let x_dot := entry X 1 in
      let z_dot := entry X 3 in
      let theta := entry X 4 in
      let theta_dot := entry X 5 in
      let T1 := entry U 0 in
      let T2 := entry U 1 in
      [x_dot;
       sin theta * (T1 + T2) / m;
       z_dot;
       cos theta * (T1 + T2) / m - g;
       theta_dot;
       l * (T2 - T1) / Iyy P / R_sqrt.sqrt 2]
  | THREE_D =>
      let J : mat3 := ((Ixx P, 0, 0), (0, Iyy P, 0), (0, 0, Izz P)) in
      let Jinv : mat3 := ((1 / Ixx P, 0, 0), (0, 1 / Iyy P, 0), (0, 0, 1 / Izz P)) in
      let gamma := KM P / KF P in
      let x_dot := entry X 1 in
      let y_dot := entry X 3 in
      let z_dot := entry X 5 in
      let phi := entry X 6 in
      let theta := entry X 7 in
      let psi := entry X 8 in
      let w : vec3 := (entry X 9, entry X 10, entry X 11) in
      let f1 := entry U 0 in
      let f2 := entry U 1 in
      let f3 := entry U 2 in
      let f4 := entry U 3 in
      let Rob := csRotXYZ phi theta psi in
      let pos_ddot :=
        vec3_sub (vec3_div (mat3_vec Rob (0, 0, f1 + f2 + f3 + f4)) m) (0, 0, g) in
      let Mb : vec3 :=
        (l / R_sqrt.sqrt 2 * (f1 + f2 - f3 - f4),
         l / R_sqrt.sqrt 2 * (- f1 + f2 + f3 - f4),
         gamma * (f1 - f2 + f3 - f4)) in
      let rate_dot :=
        mat3_vec Jinv (vec3_sub Mb (mat3_vec (mat3_mul (skew w) J) w)) in
      let ang_dot :=
        mat3_vec ((1, sin phi * tan theta, cos phi * tan theta),
                  (0, cos phi, - sin phi),
                  (0, sin phi / cos theta, cos phi / cos theta)) w in
      let '(ax, ay, az) := pos_ddot in
      let '(a1, a2, a3) := ang_dot in
      let '(w1, w2, w3) := rate_dot in
      [x_dot; ax; y_dot; ay; z_dot; az; a1; a2; a3; w1; w2; w3]
  end.

(** [Y], the observation equation: the state itself. *)
Definition Y (q : QuadType) (X : list R) : list R :=
  map (entry X) (seq 0 (nx q)).

(** Sum of [f 0 .. f (n-1)]. *)
Fixpoint big_sum (n : nat) (f : nat -> R) : R :=
  match n with
  | O => 0
  | S k => big_sum k f + f k
  end.

(** [0.5 * e.T @ M @ e] for a column [e] of size [n], with the products
    taken from the left as Python does: [((0.5 * e.T) @ M) @ e]. *)
Definition half_quad (n : nat) (e : nat -> R) (M : list (list R)) : R :=
  big_sum n (fun j => big_sum n (fun i => (0.5 * e i) * mentry M i j) * e j).

(** [cost_func = 0.5 * (X - Xr).T @ Q @ (X - Xr) + 0.5 * (U - Ur).T @ R @ (U - Ur)]. *)
Definition cost_func (q : QuadType) (X U Xr Ur : list R) (Q R_ : list (list R)) : R :=
  half_quad (nx q) (fun i => entry X i - entry Xr i) Q
  + half_quad (nu q) (fun i => entry U i - entry Ur i) R_.

(** The quadratic form [e.T M e] as the specification writes it. *)
Definition quad_form (n : nat) (e : nat -> R) (M : list (list R)) : R :=
  big_sum n (fun i => big_sum n (fun j => e i * mentry M i j * e j)).

Definition spec_loss (q : QuadType) (X U Xr Ur : list R) (Q R_ : list (list R)) : R :=
  0.5 * quad_form (nx q) (fun i => entry X i - entry Xr i) Q
  + 0.5 * quad_form (nu q) (fun i => entry U i - entry Ur i) R_.

(** [U_GOAL = np.ones(action_dim) * MASS * GRAVITY_ACC / action_dim], in
    exact arithmetic. *)
Definition U_GOAL (P : quad_params) (q : QuadType) : list R :=
  map (fun one => one * MASS P * GRAVITY_ACC P / INR (nu q)) (repeat 1 (nu q)).

End Symbolic.

(* ================================================================= *)
(** ** [_get_reward] *)

(** The task with its reference: [X_GOAL] is one state for stabilisation and
    a sequence of states, one row per control step, for trajectory tracking. *)
Inductive goal : Type :=
| Stabilization (X_GOAL : list R)
| TrajTracking (X_GOAL : list (list R)).

Definition TASK (gl : goal) : Task :=
  match gl with
  | Stabilization _ => STABILIZATION
  | TrajTracking _ => TRAJ_TRACKING
  end.

(** The attributes of [self] that [_get_reward] reads. *)
Record reward_attrs : Type := {
  r_QUAD_TYPE : QuadType;
  COST : Cost;
  X_GOAL : goal;
  r_U_GOAL : list R;
  state : list R;
  current_preprocessed_action : list R;
  rew_state_weight : list R;
  rew_act_weight : list R;
  rew_exponential : bool;
  Q_weight : list (list R);
  R_weight : list (list R);
  ctrl_step_counter : Z;
  r_stepped_through_gate : bool;
  r_at_goal_pos : bool;
  r_currently_collided : bool;
  cnstr_violation : bool
}.

(** The competition reward is a Python integer, the other two are floats. *)
Inductive reward : Type :=
| IntReward (z : Z)
| FloatReward (r : R).

(** Element-wise operation of numpy on one-dimensional arrays; an operand of
    one element is broadcast.  On operands of other, different lengths numpy
    raises [ValueError]; the function then stops at the shorter one, and
    describes the calls that return. *)
Definition np_binop (f : R -> R -> R) (a b : list R) : list R :=
  match a, b with
  | [c], _ => map (f c) b
  | _, [c] => map (fun x => f x c) a
  | _, _ => map (fun p : R * R => f (fst p) (snd p)) (combine a b)
  end.

Definition np_sum (l : list R) : R := fold_left Rplus l 0%R.

(** [np.sum(w * e * e) + np.sum(wa * ae * ae)]. *)
Definition rl_dist (s : reward_attrs) (state_error act_error : list R) : R :=
  (np_sum (np_binop Rmult (np_binop Rmult (rew_state_weight s) state_error) state_error)
   + np_sum (np_binop Rmult (np_binop Rmult (rew_act_weight s) act_error) act_error))%R.

(** The row of the goal sequence read under trajectory tracking by the dense
    reward: [X_GOAL[min(ctrl_step_counter, X_GOAL.shape[0] - 1)]]. *)
Definition rl_goal_row (rows : list (list R)) (ctrl_step_counter : Z)
  : result (list R) :=
  let wp_idx := Z.min ctrl_step_counter (Z.of_nat (length rows) - 1) in
  np_index rows wp_idx.

(** The row read by the quadratic cost: [X_GOAL[ctrl_step_counter, :]]. *)
Definition quadratic_goal_row (rows : list (list R)) (ctrl_step_counter : Z)
  : result (list R) :=
  np_index rows ctrl_step_counter.

(** [_get_reward].  The dense and the quadratic reward are computed in
    exact arithmetic, with the real exponential: the binary64 value differs
    by rounding, and [np.exp] underflows to 0 for a large cost. *)
Definition _get_reward (s : reward_attrs) : result reward :=
  match COST s with
  | RL_REWARD =>
      let act_error := np_binop Rminus (current_preprocessed_action s) (r_U_GOAL s) in
      dist <- match X_GOAL s with
              | Stabilization x_goal =>
                  Ok (rl_dist s (np_binop Rminus (state s) x_goal) act_error)
              | TrajTracking rows =>
                  x_goal <- rl_goal_row rows (ctrl_step_counter s) ;;
                  Ok (rl_dist s (np_binop Rminus (state s) x_goal) act_error)
              end ;;
      let rew := (- dist)%R in
      Ok (FloatReward (if rew_exponential s then exp rew else rew))
  | QUADRATIC =>
      x_goal <- match X_GOAL s with
                | Stabilization x_goal => Ok x_goal
                | TrajTracking rows => quadratic_goal_row rows (ctrl_step_counter s)
                end ;;
      Ok (FloatReward
            (-1 * cost_func (r_QUAD_TYPE s) (state s) (current_preprocessed_action s)
                            x_goal (r_U_GOAL s) (Q_weight s) (R_weight s))%R)
  | COMPETITION =>
      let reward := 0 in
      let reward := if r_stepped_through_gate s then reward + 100 else reward in
      let reward := if r_at_goal_pos s then reward + 100 else reward in
      let reward := if r_currently_collided s then reward - 1000 else reward in
      let reward := if cnstr_violation s then reward - 100 else reward in
      Ok (IntReward reward)
  end.

(* ================================================================= *)
(** ** [__init__]: references and weights *)

(** [X_GOAL] of the stabilisation task, from
    [TASK_INFO["stabilization_goal"]]: the 1D vehicle reads entry 1, the 2D
    vehicle entries 0 and 1, the 3D vehicle entries 0, 1 and 2. *)
Definition stabilization_X_GOAL (q : QuadType) (stabilization_goal : list R)
  : result (list R) :=
  match q with
  | ONE_D =>
      g1 <- np_index stabilization_goal 1 ;;
      Ok [g1; 0]%R
  | TWO_D =>
      g0 <- np_index stabilization_goal 0 ;;
      g1 <- np_index stabilization_goal 1 ;;
      Ok [g0; 0; g1; 0; 0; 0]%R
  | THREE_D =>
      g0 <- np_index stabilization_goal 0 ;;
      g1 <- np_index stabilization_goal 1 ;;
      g2 <- np_index stabilization_goal 2 ;;
      Ok [g0; 0; g1; 0; g2; 0; 0; 0; 0; 0; 0; 0]%R
  end.

(** [X_GOAL] of the tracking task, from the position and velocity samples
    ([POS_REF], [VEL_REF]; for the 3D vehicle the samples already passed
    through [transform_trajectory]): [np.vstack([...]).transpose()], which
    needs as many velocity as position samples. *)
Definition tracking_X_GOAL (q : QuadType) (POS_REF VEL_REF : list (R * R * R))
  : result (list (list R)) :=
  if Nat.eqb (length POS_REF) (length VEL_REF) then
    Ok (map (fun pv : (R * R * R) * (R * R * R) =>
               let '((px, py, pz), (vx, vy, vz)) := pv in
               match q with
               | ONE_D => [pz; vz]
               | TWO_D => [px; vx; pz; vz; 0; 0]
               | THREE_D => [px; vx; py; vy; pz; vz; 0; 0; 0; 0; 0; 0]
               end%R)
            (combine POS_REF VEL_REF))
  else Raise ValueError.

(** [info_mse_metric_state_weight]: the default of the fidelity level, or
    the argument when it has the size of the state. *)
Definition init_info_mse_metric_state_weight (q : QuadType) (arg : option (list R))
  : result (list R) :=
  match arg with
  | None =>
      Ok (match q with
          | ONE_D => [1; 0]
          | TWO_D => [1; 0; 1; 0; 0; 0]
          | THREE_D => [1; 0; 1; 0; 1; 0; 0; 0; 0; 0; 0; 0]
          end%R)
  | Some w =>
      if Nat.eqb (length w) (nx q) then Ok w else Raise ValueError
  end.

(** [info["mse"]] of [_get_info]: the squared state error, weighted, against
    the goal (under tracking, the row of the clamped step index). *)
Definition info_mse (gl : goal) (st : list R) (ctrl_step : Z)
           (info_mse_metric_state_weight : list R) : result R :=
  state_error <- match gl with
                 | Stabilization x_goal => Ok (np_binop Rminus st x_goal)
                 | TrajTracking rows =>
                     x_goal <- rl_goal_row rows ctrl_step ;;
                     Ok (np_binop Rminus st x_goal)
                 end ;;
  let state_error := np_binop Rmult state_error info_mse_metric_state_weight in
  Ok (np_sum (map (fun x => x ^ 2)%R state_error)).

(* ================================================================= *)
(** ** [_set_action_space] and [_preprocess_control] *)


(** The action space: normalised around the hover thrust
    ([NORMALIZED_RL_ACTION_SPACE], which also sets [hover_thrust]), or direct
    thrusts. *)
Inductive action_space : Type :=
| NormalizedThrust (hover_thrust : R) (low high : list R)
| DirectThrust (low high : list R).


(** [np.clip(a, low, high)], that is [minimum(maximum(a, low), high)]. *)
Definition np_clip (a low high : list R) : list R :=
  np_binop Rmin (np_binop Rmax a low) high.

(** The thrust [_preprocess_control] stores in
    [current_preprocessed_action]. *)
Definition _preprocess_control (sp : action_space) (norm_act_scale : R)
           (action : list R) : list R :=
  match sp with
  | NormalizedThrust hover_thrust low high =>
      let action := np_clip action low high in
      map (fun a => (1 + norm_act_scale * a) * hover_thrust)%R action
  | DirectThrust low high => np_clip action low high
  end.

(* ================================================================= *)
(** ** [_set_observation_space] and [_get_observation] *)

Section ObservationSpace.

(** [spaces.Box(..., dtype=np.float32)] rounds the bounds to single
    precision; the rounding is a parameter.  [GROUND_PLANE_Z] is set by the
    base class. *)
Variable float32 : float -> float.
Variable GROUND_PLANE_Z : float.

Definition x_threshold : float := 5%float.
Definition y_threshold : float := 5%float.
Definition z_threshold : float := 2.5%float.
Definition math_pi : float := 0x1.921fb54442d18p+1%float.
Definition phi_threshold_radians : float := (85 * math_pi / 180)%float.
Definition theta_threshold_radians : float := (85 * math_pi / 180)%float.
Definition psi_threshold_radians : float := (180 * math_pi / 180)%float.

(** [np.finfo(np.float32).max]. *)
Definition float32_max : float := 0x1.fffffep+127%float.

(** The arrays [low] and [high] of the state. *)
Definition state_low (q : QuadType) : list float :=
  match q with
  | ONE_D => [GROUND_PLANE_Z; - float32_max]
  | TWO_D => [- x_threshold; - float32_max; GROUND_PLANE_Z; - float32_max;
              - theta_threshold_radians; - float32_max]
  | THREE_D => [- x_threshold; - float32_max; - y_threshold; - float32_max;
                GROUND_PLANE_Z; - float32_max;
                - phi_threshold_radians; - theta_threshold_radians;
                - psi_threshold_radians;
                - float32_max; - float32_max; - float32_max]
  end%float.

Definition state_high (q : QuadType) : list float :=
  match q with
  | ONE_D => [z_threshold; float32_max]
  | TWO_D => [x_threshold; float32_max; z_threshold; float32_max;
              theta_threshold_radians; float32_max]
  | THREE_D => [x_threshold; float32_max; y_threshold; float32_max;
                z_threshold; float32_max;
                phi_threshold_radians; theta_threshold_radians;
                psi_threshold_radians;
                float32_max; float32_max; float32_max]
  end.

(** [self.state_space]: its [low] and [high]. *)
Definition state_space (q : QuadType) : list float * list float :=
  (map float32 (state_low q), map float32 (state_high q)).

(** [self.observation_space]: under the dense reward and a positive goal
    horizon the bounds are repeated for the goal states appended to the
    observation. *)
Definition observation_space (q : QuadType) (c : Cost) (t : Task)
           (obs_goal_horizon : Z) : list float * list float :=
  let rl := match c with RL_REWARD => true | _ => false end in
  let tracking := match t with TRAJ_TRACKING => true | STABILIZATION => false end in
  let '(low, high) :=
    if rl && tracking && (0 <? obs_goal_horizon) then
      let mul := Z.to_nat (1 + obs_goal_horizon) in
      (concat (repeat (state_low q) mul), concat (repeat (state_high q) mul))
    else if rl && negb tracking && (0 <? obs_goal_horizon) then
      (concat (repeat (state_low q) 2), concat (repeat (state_high q) 2))
    else (state_low q, state_high q) in
  (map float32 low, map float32 high).

End ObservationSpace.

(** [self.state] of [_get_observation], from the 20 entries of the drone
    state vector, split at [3, 7, 10, 13, 16] into position, quaternion,
    roll-pitch-yaw, velocity and angular velocity.  For the 3D vehicle the
    angular velocity in the body frame, [Rbo @ ang_v], is an input.  A
    missing entry or a wrong size ([IndexError], or [ValueError] of
    [reshape]) gives [None]. *)
Definition observed_state (q : QuadType) (full_state ang_v_body_frame : list float)
  : option (list float) :=
  let pos := firstn 3 full_state in
  let rpy := firstn 3 (skipn 7 full_state) in
  let vel := firstn 3 (skipn 10 full_state) in
  let ang_v := firstn 3 (skipn 13 full_state) in
  match q with
  | ONE_D =>
      match nth_error pos 2, nth_error vel 2 with
      | Some z, Some z_dot => Some [z; z_dot]
      | _, _ => None
      end
  | TWO_D =>
      match nth_error pos 0, nth_error vel 0, nth_error pos 2, nth_error vel 2,
            nth_error rpy 1, nth_error ang_v 1 with
      | Some x, Some x_dot, Some z, Some z_dot, Some theta, Some theta_dot =>
          Some [x; x_dot; z; z_dot; theta; theta_dot]
      | _, _, _, _, _, _ => None
      end
  | THREE_D =>
      match nth_error pos 0, nth_error vel 0, nth_error pos 1, nth_error vel 1,
            nth_error pos 2, nth_error vel 2 with
      | Some x, Some x_dot, Some y, Some y_dot, Some z, Some z_dot =>
          let st := ([x; x_dot; y; y_dot; z; z_dot] ++ rpy ++ ang_v_body_frame)%list in
          if Nat.eqb (length st) 12 then Some st else None
      | _, _, _, _, _, _ => None
      end
  end.

(** [_get_done] on a state, an observation space and the flags. *)
Definition done_attrs_of (q : QuadType) (oob on_collision on_completion : bool)
           (st : list float) (space : list float * list float)
           (collided completed : bool) : done_attrs :=
  {| d_QUAD_TYPE := q;
     d_done_on_out_of_bound := oob;
     d_DONE_ON_COLLISION := on_collision;
     d_DONE_ON_COMPLETION := on_completion;
     d_state := st;
     d_state_space_low := fst space;
     d_state_space_high := snd space;
     d_currently_collided := collided;
     d_task_completed := completed |}.

(** The attributes with another state. *)
Definition with_state (s : done_attrs) (st : list float) : done_attrs :=
  {| d_QUAD_TYPE := d_QUAD_TYPE s;
     d_done_on_out_of_bound := d_done_on_out_of_bound s;
     d_DONE_ON_COLLISION := d_DONE_ON_COLLISION s;
     d_DONE_ON_COMPLETION := d_DONE_ON_COMPLETION s;
     d_state := st;
     d_state_space_low := d_state_space_low s;
     d_state_space_high := d_state_space_high s;
     d_currently_collided := d_currently_collided s;
     d_task_completed := d_task_completed s |}.

(* ================================================================= *)
(** ** A small track, for concrete runs *)

(** Two gates (one tall, one low) and one obstacle, nothing randomised,
    physics at 1000 Hz and control at 30 Hz. *)
Definition track : env :=
  {| QUAD_TYPE := THREE_D;
     GATES := [ {| g_x := 0.5; g_y := -2.5; g_z := 0;
                   g_roll := 0; g_pitch := 0; g_yaw := -1.57; g_type := 0 |};
                {| g_x := 2; g_y := -1.5; g_z := 0;
                   g_roll := 0; g_pitch := 0; g_yaw := 0; g_type := 1 |} ]%float;
     OBSTACLES := [ {| o_x := 1.5; o_y := -2.5; o_z := 0;
                       o_roll := 0; o_pitch := 0; o_yaw := 0 |} ]%float;
     PYB_FREQ := 1000;
     CTRL_FREQ := 30;
     RANDOMIZED_GATES_AND_OBS := false;
     RANDOMIZED_INERTIAL_PROP := false;
     RANDOMIZED_INIT := false;
     nominal_prop_values := [0.027; 1.4e-5; 1.4e-5; 2.17e-5]%float;
     init_attr := fun _ => 0%float |}.

Definition no_draws : reset_draws :=
  {| obstacle_draws := fun _ => (0, 0, 0)%float;
     gate_draws := fun _ => (0, 0, 0)%float;
     randomized_prop_values := [];
     randomize_init := fun d => d |}.

(** Bodies 1 and 2 are the gates, 3 the obstacle, 0 the ground plane. *)
Definition no_contact : list (Z * bool) :=
  [(1, false); (2, false); (3, false); (0, false)].

(** A call on which no ray is cut, and one on which the second ray is. *)
Definition quiet (pyb : Z) : physics :=
  {| pyb_step_counter := pyb;
     contacts := no_contact;
     rays := [1; 1; 1; 1; 1; 1; 1]%float;
     near_goal := false |}.

Definition crossing (pyb : Z) : physics :=
  {| pyb_step_counter := pyb;
     contacts := no_contact;
     rays := [1; 0.4; 1; 1; 1; 1; 1]%float;
     near_goal := false |}.

(** The attributes of a 1D vehicle that tracks a reference of [horizon]
    three, seen by [_get_reward] at control step [k] under cost policy [c];
    [gate] and [hit] are the gate-passage and collision flags. *)
Definition tracking_attrs (c : Cost) (k : Z) (gate hit : bool) : reward_attrs :=
  {| r_QUAD_TYPE := ONE_D;
     COST := c;
     X_GOAL := TrajTracking [[1; 0]; [2; 0]; [3; 0]]%R;
     r_U_GOAL := [1]%R;
     state := [3; 0]%R;
     current_preprocessed_action := [1]%R;
     rew_state_weight := [1]%R;
     rew_act_weight := [1]%R;
     rew_exponential := false;
     Q_weight := [[1; 0]; [0; 1]]%R;
     R_weight := [[1]]%R;
     ctrl_step_counter := k;
     r_stepped_through_gate := gate;
     r_at_goal_pos := false;
     r_currently_collided := hit;
     cnstr_violation := false |}.

(* ================================================================= *)
(** ** Specification predicates *)

(** Some state dimension selected by the mask lies strictly outside the
    bounds of the observation space. *)
Definition selected_out_of_bound (s : done_attrs) : Prop :=
  exists (i : nat) (x lo hi : float),
    nth_error (d_state s) i = Some x /\
    nth_error (d_state_space_low s) i = Some lo /\
    nth_error (d_state_space_high s) i = Some hi /\
    nth_error (mask (d_QUAD_TYPE s)) i = Some 1 /\
    ((x <? lo)%float = true \/ (hi <? x)%float = true).

(** The arrays [_get_done] compares have the shape of the state. *)
Definition done_shapes (s : done_attrs) : Prop :=
  length (d_state s) = nx (d_QUAD_TYPE s) /\
  length (d_state_space_low s) = nx (d_QUAD_TYPE s) /\
  length (d_state_space_high s) = nx (d_QUAD_TYPE s).

(** The passage check fires on this call of [_get_info]: the guard of the
    gate block holds and some ray is cut short of 0.9999. *)
Definition passage_detected (e : env) (s : episode) (ph : physics) : bool :=
  gate_guard e s ph && existsb (fun r => r <? 0.9999)%float (rays ph).

(** Number of calls of [_get_info] along an episode on which the passage
    check fires. *)
Fixpoint detections (e : env) (s : episode) (steps : list physics) : Z :=
  match steps with
  | [] => 0
  | ph :: steps' =>
      Z.b2z (passage_detected e s ph)
      + match _get_info e s ph with
        | Ok (s', _) => detections e s' steps'
        | Raise _ => 0
        end
  end.

(** A hover state: any position, all velocities, angles and body rates 0. *)
Definition hover_state (q : QuadType) (x y z : R) : list R :=
  match q with
  | ONE_D => [z; 0]
  | TWO_D => [x; 0; z; 0; 0; 0]
  | THREE_D => [x; 0; y; 0; z; 0; 0; 0; 0; 0; 0; 0]
  end%R.

(** The parameters of the vehicle of the track. *)
Definition crazyflie : quad_params :=
  {| MASS := 27 / 1000;
     GRAVITY_ACC := 98 / 10;
     L := 397 / 10000;
     Ixx := 14 / 1000000;
     Iyy := 14 / 1000000;
     Izz := 217 / 10000000;
     KM := 794 / 100;
     KF := 316 / 100 |}%R.

(** After [n] calls of [_get_info]: the dwell counter is at most [n], and
    the task is completed only with every gate passed, for the 3D vehicle,
    and after more than [2 * CTRL_FREQ] calls. *)
Definition completion_inv (e : env) (n : Z) (s : episode) : Prop :=
  0 <= n /\
  steps_at_goal_pos s <= n /\
  (task_completed s = true ->
   current_gate s = NUM_GATES e /\ QUAD_TYPE e = THREE_D /\ CTRL_FREQ e * 2 < n).



(** A weight matrix that is diagonal on its first [n] rows and columns,
    with non-negative diagonal entries. *)
Definition diag_nonneg (n : nat) (M : list (list R)) : Prop :=
  forall i j, (i < n)%nat -> (j < n)%nat ->
              (i <> j -> mentry M i j = 0%R) /\ (0 <= mentry M i i)%R.

(** The action error of the dense reward. *)
Definition act_error (s : reward_attrs) : list R :=
  np_binop Rminus (current_preprocessed_action s) (r_U_GOAL s).

(** Two one-dimensional arrays numpy can combine element-wise: of one
    length, or one of them of a single element. *)
Definition np_broadcastable (a b : list R) : Prop :=
  length a = length b \/ length a = 1%nat \/ length b = 1%nat.



(* ================================================================= *)
(** ** Properties of [_get_done] *)

Lemma elementwise_Some {A B C : Type} (f : A -> B -> C) :
  forall (xs : list A) (ys : list B),
    length xs = length ys ->
    exists zs, elementwise f xs ys = Some zs /\
               length zs = length xs /\
               forall i, nth_error zs i =
                         match nth_error xs i, nth_error ys i with
                         | Some x, Some y => Some (f x y)
                         | _, _ => None
                         end.
Proof.
  induction xs as [|x xs IH]; intros [|y ys] Hlen; simpl in Hlen; try discriminate.
  - exists []. repeat split. intros [|i]; reflexivity.
  - injection Hlen as Hlen. destruct (IH ys Hlen) as (zs & Hz & Hl & Hn).
    exists (f x y :: zs). simpl. rewrite Hz. repeat split.
    + now rewrite Hl.
    + intros [|i]; simpl; [reflexivity | apply Hn].
Qed.

Lemma np_any_true (l : list Z) :
  np_any l = true <-> exists i z, nth_error l i = Some z /\ z <> 0.
Proof.
  unfold np_any. rewrite existsb_exists. split.
  - intros (z & Hin & Hz). apply In_nth_error in Hin as (i & Hi).
    exists i, z. split; [assumption|].
    apply negb_true_iff, Z.eqb_neq in Hz. assumption.
  - intros (i & z & Hi & Hz). exists z. split.
    + eapply nth_error_In; eassumption.
    + apply negb_true_iff, Z.eqb_neq. assumption.
Qed.

Lemma mask_length (q : QuadType) : length (mask q) = nx q.
Proof. destruct q; reflexivity. Qed.

Lemma mask_binary (q : QuadType) (i : nat) (m : Z) :
  nth_error (mask q) i = Some m -> m = 0 \/ m = 1.
Proof.
  intros H. apply nth_error_In in H.
  destruct q; simpl in H; intuition lia.
Qed.

Lemma out_of_bound_spec (s : done_attrs) :
  done_shapes s ->
  exists b, out_of_bound s = Some b /\ (b = true <-> selected_out_of_bound s).
Proof.
  intros (Hs & Hl & Hh). unfold out_of_bound.
  destruct (elementwise_Some PrimFloat.ltb (d_state s) (d_state_space_low s))
    as (below & -> & Lb & Nb); [congruence|].
  destruct (elementwise_Some (fun x h => PrimFloat.ltb h x) (d_state s) (d_state_space_high s))
    as (above & -> & La & Na); [congruence|].
  destruct (elementwise_Some orb below above) as (oob & -> & Lo & No); [congruence|].
  destruct (elementwise_Some (fun (b : bool) m => Z.b2z b * m) oob (mask (d_QUAD_TYPE s)))
    as (masked & -> & Lm & Nm); [rewrite mask_length; congruence|].
  eexists; split; [reflexivity|]. rewrite np_any_true. split.
  - intros (i & z & Hi & Hz). rewrite Nm, No, Nb, Na in Hi.
    destruct (nth_error (d_state s) i) as [x|] eqn:Ex; [|discriminate].
    destruct (nth_error (d_state_space_low s) i) as [lo|] eqn:El; [|discriminate].
    destruct (nth_error (d_state_space_high s) i) as [hi|] eqn:Eh; [|discriminate].
    destruct (nth_error (mask (d_QUAD_TYPE s)) i) as [m|] eqn:Em; [|discriminate].
    injection Hi as Hi. exists i, x, lo, hi.
    destruct (mask_binary _ _ _ Em) as [-> | ->]; [lia|].
    repeat split; try assumption.
    destruct (x <? lo)%float; [now left|].
    destruct (hi <? x)%float; [now right|].
    simpl in Hi. lia.
  - intros (i & x & lo & hi & Ex & El & Eh & Em & Hout).
    exists i, 1. rewrite Nm, No, Nb, Na, Ex, El, Eh, Em. split; [|lia].
    do 2 f_equal.
    destruct Hout as [-> | ->]; [reflexivity|].
    rewrite orb_true_r. reflexivity.
Qed.

(** C1.  On a state of the shape of the fidelity level, [_get_done] returns
    a flag, and the flag is true exactly when (a) the out-of-bound check is
    enabled and a state dimension selected by the mask lies strictly outside
    the bounds, or (b) the vehicle is in collision and termination on
    collision is enabled, or (c) the task is completed and termination on
    completion is enabled.  The masks are [1,0], [1,0,1,0,1,0] and
    [1,0,1,0,1,0,1,1,1,0,0,0]. *)
Theorem get_done_is_or_of_three_checks (s : done_attrs) :
  done_shapes s ->
  (exists b, _get_done s = Some b /\
     (b = true <->
        (d_done_on_out_of_bound s = true /\ selected_out_of_bound s) \/
        (d_currently_collided s = true /\ d_DONE_ON_COLLISION s = true) \/
        (d_task_completed s = true /\ d_DONE_ON_COMPLETION s = true))) /\
  mask ONE_D = [1; 0] /\
  mask TWO_D = [1; 0; 1; 0; 1; 0] /\
  mask THREE_D = [1; 0; 1; 0; 1; 0; 1; 1; 1; 0; 0; 0].
Proof.
  intros Hshape. split; [|repeat split].
  destruct (out_of_bound_spec s Hshape) as (o & Ho & Hspec).
  assert (Hflags : done_on_flags s = true <->
            (d_currently_collided s = true /\ d_DONE_ON_COLLISION s = true) \/
            (d_task_completed s = true /\ d_DONE_ON_COMPLETION s = true)).
  { unfold done_on_flags.
    destruct (d_DONE_ON_COLLISION s), (d_currently_collided s),
             (d_DONE_ON_COMPLETION s), (d_task_completed s); simpl;
      intuition discriminate. }
  unfold _get_done. rewrite Ho.
  destruct (d_done_on_out_of_bound s).
  - destruct o.
    + exists true. split; [reflexivity|]. split; [|reflexivity].
      intros _. left. split; [reflexivity|]. now apply Hspec.
    + eexists. split; [reflexivity|]. rewrite Hflags. split.
      * intros H. right. exact H.
      * intros [[_ H] | H]; [|exact H].
        apply Hspec in H. discriminate.
  - eexists. split; [reflexivity|]. rewrite Hflags. split.
    + intros H. right. exact H.
    + intros [[H _] | H]; [discriminate | exact H].
Qed.

Lemma get_done_is_or_of_three_checks_witness :
  let s := {| d_QUAD_TYPE := ONE_D;
              d_done_on_out_of_bound := true;
              d_DONE_ON_COLLISION := false;
              d_DONE_ON_COMPLETION := false;
              d_state := [3; 0]%float;
              d_state_space_low := [-2.5; -100]%float;
              d_state_space_high := [2.5; 100]%float;
              d_currently_collided := false;
              d_task_completed := false |} in
  done_shapes s /\ _get_done s = Some true /\
  (exists b, _get_done s = Some b /\
     (b = true <->
        (d_done_on_out_of_bound s = true /\ selected_out_of_bound s) \/
        (d_currently_collided s = true /\ d_DONE_ON_COLLISION s = true) \/
        (d_task_completed s = true /\ d_DONE_ON_COMPLETION s = true))).
Proof.
  intros s.
  assert (H : done_shapes s) by (repeat split; reflexivity).
  split; [exact H|]. split; [reflexivity|].
  exact (proj1 (get_done_is_or_of_three_checks s H)).
Defined.

(* ================================================================= *)
(** ** Properties of the gate-progress state machine *)

Lemma rays_loop_spec (rs : list float) (cg : Z) :
  rays_loop rs cg =
  (cg + Z.b2z (existsb (fun r => r <? 0.9999)%float rs),
   existsb (fun r => r <? 0.9999)%float rs).
Proof.
  induction rs as [|r rs IH]; simpl.
  - f_equal. lia.
  - destruct (r <? 0.9999)%float; simpl; [reflexivity | exact IH].
Qed.

Lemma np_index_in_range {A : Type} (l : list A) (i : Z) :
  0 <= i < Z.of_nat (length l) -> exists a, np_index l i = Ok a.
Proof.
  intros Hi. unfold np_index.
  assert (Hneg : (i <? 0) = false) by (apply Z.ltb_ge; lia).
  rewrite Hneg.
  assert (Hlo : (0 <=? i) = true) by (apply Z.leb_le; lia).
  assert (Hhi : (i <? Z.of_nat (length l)) = true) by (apply Z.ltb_lt; lia).
  rewrite Hlo, Hhi. simpl.
  destruct (nth_error l (Z.to_nat i)) as [a|] eqn:E; [now exists a|].
  apply nth_error_None in E. lia.
Qed.

(** The gate block, when it does not raise. *)
Lemma gates_progress_Ok (e : env) (s : episode) (ph : physics)
      (cg : Z) (stepped : bool) (n : nat) :
  gates_progress e s ph = Ok (cg, stepped, n) ->
  cg = current_gate s + Z.b2z (passage_detected e s ph) /\
  stepped = (if gate_guard e s ph
             then existsb (fun r => r <? 0.9999)%float (rays ph)
             else stepped_through_gate s) /\
  n = (if gate_guard e s ph then S (ray_tests s) else ray_tests s).
Proof.
  unfold gates_progress, passage_detected.
  destruct (gate_guard e s ph); simpl.
  - destruct (np_index (_gates_pose s) (current_gate s)); simpl; [|discriminate].
    destruct (np_index (GATES e) (current_gate s)) as [g|]; simpl; [|discriminate].
    destruct (gate_height g); simpl; [|discriminate].
    rewrite rays_loop_spec. intros H. injection H as <- <- <-. auto.
  - intros H. injection H as <- <- <-. repeat split. lia.
Qed.

(** [_get_info], when it does not raise: the new attributes and the
    reported gate id. *)
Lemma get_info_Ok (e : env) (s s' : episode) (ph : physics) (i : info) :
  _get_info e s ph = Ok (s', i) ->
  current_gate s' = current_gate s + Z.b2z (passage_detected e s ph) /\
  stepped_through_gate s' =
    (if gate_guard e s ph
     then existsb (fun r => r <? 0.9999)%float (rays ph)
     else stepped_through_gate s) /\
  ray_tests s' = (if gate_guard e s ph then S (ray_tests s) else ray_tests s) /\
  _gates_pose s' = _gates_pose s /\
  current_gate_id i = (if current_gate s' <? NUM_GATES e then current_gate s' else -1).
Proof.
  unfold _get_info.
  destruct (gates_progress e s ph) as [[[cg stepped] n]|] eqn:G; simpl; [|discriminate].
  destruct (goal_progress e s ph cg) as [[[[agp steps] tc] iagp] itc].
  intros H. injection H as <- <-. simpl.
  apply gates_progress_Ok in G as (-> & -> & ->). auto.
Qed.

Lemma passage_detected_guard (e : env) (s : episode) (ph : physics) :
  passage_detected e s ph = true -> current_gate s < NUM_GATES e.
Proof.
  unfold passage_detected, gate_guard. intros H.
  apply andb_true_iff in H as [H _]. apply andb_true_iff in H as [_ H].
  now apply Z.ltb_lt.
Qed.

(** A call of [_get_info] that returns keeps the counter between 0 and
    [NUM_GATES], and adds 1 to it exactly when the passage check fires. *)
Lemma get_info_counter (e : env) (s s' : episode) (ph : physics) (i : info) :
  0 <= current_gate s <= NUM_GATES e ->
  _get_info e s ph = Ok (s', i) ->
  current_gate s' = current_gate s + Z.b2z (passage_detected e s ph) /\
  0 <= current_gate s' <= NUM_GATES e.
Proof.
  intros Hr E. destruct (get_info_Ok _ _ _ _ _ E) as (Hcg & _).
  split; [exact Hcg|]. rewrite Hcg.
  destruct (passage_detected e s ph) eqn:D; simpl; [|lia].
  apply passage_detected_guard in D. lia.
Qed.

(** An episode whose calls all return. *)
Lemma run_counter (e : env) (steps : list physics) :
  forall s s',
    0 <= current_gate s <= NUM_GATES e ->
    run e s steps = Ok s' ->
    0 <= current_gate s' <= NUM_GATES e /\
    current_gate s' = current_gate s + detections e s steps.
Proof.
  induction steps as [|ph steps IH]; intros s s' Hr Hrun; simpl in *.
  - injection Hrun as <-. split; [exact Hr | lia].
  - destruct (_get_info e s ph) as [[s1 i]|] eqn:E; simpl in Hrun; [|discriminate].
    destruct (get_info_counter _ _ _ _ _ Hr E) as (Hcg & Hr1).
    destruct (IH _ _ Hr1 Hrun) as (Hr' & Hcg').
    split; [exact Hr' | lia].
Qed.

Lemma load_gates_Ok (e : env) (dr : reset_draws) (gs : list gate) :
  forall i ps, load_gates e dr i gs = Ok ps ->
               length ps = length gs /\
               Forall (fun g => exists h, gate_height g = Ok h) gs.
Proof.
  induction gs as [|g gs IH]; intros i ps; simpl.
  - intros H. injection H as <-. split; [reflexivity | constructor].
  - destruct (gate_height g) as [h|] eqn:Eh; simpl; [|discriminate].
    destruct (load_gates e dr (S i) gs) as [rest|] eqn:Er; simpl; [|discriminate].
    intros H. injection H as <-. destruct (IH _ _ Er) as [Hl Hf].
    split; [simpl; now rewrite Hl|].
    constructor; [now exists h | exact Hf].
Qed.

(** The attributes [reset] leaves when it does not raise. *)
Lemma reset_setup_Ok (e : env) (dr : reset_draws) (g : option Z)
      (s : episode) (k : init_kin) :
  reset_setup e dr g = Ok (s, k) ->
  current_gate s = match g with Some g' => g' | None => 0 end /\
  stepped_through_gate s = false /\
  ray_tests s = 0%nat /\
  length (_gates_pose s) = length (GATES e) /\
  Forall (fun g => exists h, gate_height g = Ok h) (GATES e).
Proof.
  unfold reset_setup.
  destruct (set_obstacle_z _); simpl; [|discriminate].
  destruct (load_gates e dr 0 (GATES e)) as [ps|] eqn:El; simpl; [|discriminate].
  destruct (_ && _); [discriminate|].
  destruct (initial_pose e dr ps g); simpl; [|discriminate].
  intros H. injection H as <- <-. simpl.
  destruct (load_gates_Ok _ _ _ _ _ El). auto.
Qed.

(** C2.  In an episode started at gate 0 (no [initial_target_gate_id], or 0),
    the counter is 0 when [reset] has set the attributes.  After any calls of
    [_get_info] that returned (the one that ends [reset] and one per control
    step) the counter is between 0 and [NUM_GATES] and equals the number of
    passages detected so far, hence [NUM_GATES] once that many were; and a
    further call that returns adds exactly 1 to the counter when the passage
    check fires on that call and leaves it unchanged otherwise, so that the
    counter never decreases. *)
Theorem gate_counter_progress (e : env) (dr : reset_draws) (g : option Z)
        (s0 s : episode) (k : init_kin) (steps : list physics) :
  g = None \/ g = Some 0 ->
  reset_setup e dr g = Ok (s0, k) ->
  run e s0 steps = Ok s ->
  current_gate s0 = 0 /\
  0 <= current_gate s <= NUM_GATES e /\
  current_gate s = detections e s0 steps /\
  (detections e s0 steps = NUM_GATES e -> current_gate s = NUM_GATES e) /\
  forall (ph : physics) (s' : episode) (i : info),
    _get_info e s ph = Ok (s', i) ->
    current_gate s' =
      (if passage_detected e s ph then current_gate s + 1 else current_gate s) /\
    current_gate s <= current_gate s' <= NUM_GATES e.
Proof.
  intros Hg Hreset Hrun.
  destruct (reset_setup_Ok _ _ _ _ _ Hreset) as (Hcg & _).
  assert (H0 : current_gate s0 = 0) by (destruct Hg as [-> | ->]; exact Hcg).
  split; [exact H0|].
  assert (Hr0 : 0 <= current_gate s0 <= NUM_GATES e)
    by (rewrite H0; unfold NUM_GATES; lia).
  destruct (run_counter e steps s0 s Hr0 Hrun) as (Hr & Hcount).
  split; [exact Hr|]. split; [lia|]. split; [lia|].
  intros ph s' i E.
  destruct (get_info_counter _ _ _ _ _ Hr E) as (Hstep & Hr').
  destruct (passage_detected e s ph); simpl in Hstep; lia.
Qed.

(** C9.  The gate id reported by [_get_info] is the counter (as updated on
    this call) while it is below [NUM_GATES], and -1 once it has reached
    [NUM_GATES]; it is never [NUM_GATES]. *)
Theorem current_gate_id_reported (e : env) (s s' : episode) (ph : physics) (i : info) :
  _get_info e s ph = Ok (s', i) ->
  (current_gate s' < NUM_GATES e -> current_gate_id i = current_gate s') /\
  (NUM_GATES e <= current_gate s' -> current_gate_id i = -1) /\
  current_gate_id i <> NUM_GATES e.
Proof.
  intros E. destruct (get_info_Ok _ _ _ _ _ E) as (_ & _ & _ & _ & Hid).
  rewrite Hid. unfold NUM_GATES.
  destruct (current_gate s' <? Z.of_nat (length (GATES e))) eqn:C.
  - apply Z.ltb_lt in C. repeat split; lia.
  - apply Z.ltb_ge in C. repeat split; lia.
Qed.

(** C10.  When the physics-step counter is at most [0.5 * PYB_FREQ], or there
    is no gate, or the counter already equals [NUM_GATES], the passage check
    does not fire: the gate block of [_get_info] is skipped, it asks for no
    ray test and leaves the counter and the flag as they are; a call of
    [_get_info] that returns has the counter and the number of ray tests
    unchanged. *)
Theorem gate_check_suppressed (e : env) (s : episode) (ph : physics) :
  (inject_Z (pyb_step_counter ph) <= (1 # 2) * inject_Z (PYB_FREQ e))%Q \/
  NUM_GATES e = 0 \/
  current_gate s = NUM_GATES e ->
  passage_detected e s ph = false /\
  gates_progress e s ph = Ok (current_gate s, stepped_through_gate s, ray_tests s) /\
  forall (s' : episode) (i : info),
    _get_info e s ph = Ok (s', i) ->
    current_gate s' = current_gate s /\ ray_tests s' = ray_tests s.
Proof.
  intros H.
  assert (G : gate_guard e s ph = false).
  { unfold gate_guard. destruct H as [H | [H | H]].
    - apply Qle_bool_iff in H. rewrite H. reflexivity.
    - rewrite H. simpl. apply andb_false_intro1, andb_false_intro2. reflexivity.
    - rewrite H, Z.ltb_irrefl. apply andb_false_r. }
  assert (D : passage_detected e s ph = false).
  { unfold passage_detected. rewrite G. reflexivity. }
  split; [exact D|]. split.
  - unfold gates_progress. rewrite G. reflexivity.
  - intros s' i E.
    destruct (get_info_Ok _ _ _ _ _ E) as (Hcg & _ & Hr & _).
    rewrite G in Hr. rewrite D in Hcg. simpl in Hcg. split; [lia | exact Hr].
Qed.

Lemma gate_counter_progress_witness :
  let steps := [quiet 0; quiet 400; crossing 600; quiet 633; crossing 666] in
  exists s0 k s,
    reset_setup track no_draws None = Ok (s0, k) /\
    run track s0 steps = Ok s /\
    current_gate s0 = 0 /\
    0 <= current_gate s <= NUM_GATES track /\
    current_gate s = detections track s0 steps /\
    current_gate s = 2.
Proof.
  intros steps.
  destruct (reset_setup track no_draws None) as [[s0 k]|] eqn:E0;
    [|vm_compute in E0; discriminate].
  destruct (run track s0 steps) as [s|] eqn:E1.
  - exists s0, k, s. split; [reflexivity|]. split; [exact E1|].
    destruct (gate_counter_progress track no_draws None s0 s k steps
                (or_introl eq_refl) E0 E1) as (H0 & Hr & Hc & _).
    split; [exact H0|]. split; [exact Hr|]. split; [exact Hc|].
    vm_compute in E0. injection E0 as <- <-. vm_compute in E1.
    injection E1 as <-. reflexivity.
  - vm_compute in E0. injection E0 as <- <-. vm_compute in E1. discriminate.
Defined.

(** The track run through both gates: the counter ends at [NUM_GATES]. *)
Example track_run_counts_gates :
  exists s0 k s,
    reset_setup track no_draws None = Ok (s0, k) /\
    run track s0 [quiet 0; quiet 400; crossing 600; quiet 633; crossing 666] = Ok s /\
    current_gate s = 2 /\ NUM_GATES track = 2.
Proof.
  eexists. eexists. eexists.
  split; [reflexivity|]. split; [reflexivity|]. split; reflexivity.
Qed.

Lemma current_gate_id_reported_witness :
  exists s0 k s' i,
    reset_setup track no_draws None = Ok (s0, k) /\
    _get_info track s0 (crossing 600) = Ok (s', i) /\
    (current_gate s' < NUM_GATES track -> current_gate_id i = current_gate s') /\
    (NUM_GATES track <= current_gate s' -> current_gate_id i = -1) /\
    current_gate_id i <> NUM_GATES track.
Proof.
  destruct (reset_setup track no_draws None) as [[s0 k]|] eqn:E0;
    [|vm_compute in E0; discriminate].
  destruct (_get_info track s0 (crossing 600)) as [[s' i]|] eqn:E1.
  - exists s0, k, s', i. split; [reflexivity|]. split; [exact E1|].
    exact (current_gate_id_reported track s0 s' (crossing 600) i E1).
  - vm_compute in E0. injection E0 as <- <-. vm_compute in E1. discriminate.
Defined.

(** On the track, the call that passes the first gate reports gate 1, the
    call that passes the second one reports -1. *)
Example track_reported_gate_ids :
  exists s0 k s1 i1 s2 i2,
    reset_setup track no_draws None = Ok (s0, k) /\
    _get_info track s0 (crossing 600) = Ok (s1, i1) /\
    _get_info track s1 (crossing 633) = Ok (s2, i2) /\
    current_gate_id i1 = 1 /\ current_gate s2 = 2 /\ current_gate_id i2 = -1.
Proof.
  do 6 eexists.
  split; [reflexivity|]. split; [reflexivity|]. split; [reflexivity|].
  split; [reflexivity|]. split; reflexivity.
Qed.

Lemma gate_check_suppressed_witness :
  (inject_Z (pyb_step_counter (crossing 500)) <= (1 # 2) * inject_Z (PYB_FREQ track))%Q /\
  exists s0 k s' i,
    reset_setup track no_draws None = Ok (s0, k) /\
    _get_info track s0 (crossing 500) = Ok (s', i) /\
    passage_detected track s0 (crossing 500) = false /\
    current_gate s' = current_gate s0 /\
    ray_tests s' = ray_tests s0.
Proof.
  assert (H : (inject_Z (pyb_step_counter (crossing 500))
               <= (1 # 2) * inject_Z (PYB_FREQ track))%Q).
  { unfold Qle. simpl. lia. }
  split; [exact H|].
  destruct (reset_setup track no_draws None) as [[s0 k]|] eqn:E0;
    [|vm_compute in E0; discriminate].
  destruct (_get_info track s0 (crossing 500)) as [[s' i]|] eqn:E1.
  - exists s0, k, s', i. split; [reflexivity|]. split; [exact E1|].
    destruct (gate_check_suppressed track s0 (crossing 500) (or_introl H))
      as (D & _ & Hret).
    split; [exact D|]. exact (Hret s' i E1).
  - vm_compute in E0. injection E0 as <- <-. vm_compute in E1. discriminate.
Defined.

(** The flag after one call of [_get_info]: the outcome of the passage check
    when the gate block is entered, the old value when it is not. *)
Lemma stepped_flag_after_call (e : env) (s s' : episode) (ph : physics) (i : info) :
  _get_info e s ph = Ok (s', i) ->
  stepped_through_gate s' =
    (if gate_guard e s ph then passage_detected e s ph else stepped_through_gate s).
Proof.
  intros E. destruct (get_info_Ok _ _ _ _ _ E) as (_ & Hst & _).
  rewrite Hst. unfold passage_detected. destruct (gate_guard e s ph); reflexivity.
Qed.

(** C3, on the code.  On the track, the call that passes the last gate sets
    the flag, and the flag is still set after the next call, on which the
    passage check does not fire. *)
Theorem stepped_flag_stays_set_after_last_gate :
  exists s0 k s,
    reset_setup track no_draws None = Ok (s0, k) /\
    run track s0 [quiet 0; crossing 600; crossing 633] = Ok s /\
    current_gate s = NUM_GATES track /\
    passage_detected track s (quiet 666) = false /\
    exists s' i, _get_info track s (quiet 666) = Ok (s', i) /\
                 stepped_through_gate s' = true.
Proof.
  eexists. eexists. eexists.
  split; [reflexivity|]. split; [reflexivity|]. split; [reflexivity|].
  split; [reflexivity|].
  eexists. eexists. split; reflexivity.
Qed.

(** More generally: once every gate is passed the flag keeps the value it
    had, whatever the rays are. *)
Lemma stepped_flag_frozen_when_all_gates_passed
      (e : env) (s s' : episode) (ph : physics) (i : info) :
  current_gate s = NUM_GATES e ->
  _get_info e s ph = Ok (s', i) ->
  stepped_through_gate s' = stepped_through_gate s.
Proof.
  intros Hcg E. rewrite (stepped_flag_after_call _ _ _ _ _ E).
  unfold gate_guard. rewrite Hcg, Z.ltb_irrefl, andb_false_r. reflexivity.
Qed.

(* ================================================================= *)
(** ** Properties of [_get_reward] *)

(** C4.  Under the competition policy the reward is the sum of four
    independent contributions: +100 for a gate passed on this step, +100 at
    the goal position, -1000 in collision, -100 under a constraint violation.
    A step that passes a gate and collides, and nothing else, yields -900. *)
Theorem competition_reward_is_additive (s : reward_attrs) :
  COST s = COMPETITION ->
  _get_reward s =
    Ok (IntReward ((if r_stepped_through_gate s then 100 else 0)
                   + (if r_at_goal_pos s then 100 else 0)
                   + (if r_currently_collided s then -1000 else 0)
                   + (if cnstr_violation s then -100 else 0))) /\
  (r_stepped_through_gate s = true -> r_currently_collided s = true ->
   r_at_goal_pos s = false -> cnstr_violation s = false ->
   _get_reward s = Ok (IntReward (100 - 1000)) /\ 100 - 1000 = -900).
Proof.
  intros Hc. unfold _get_reward. rewrite Hc. split.
  - destruct (r_stepped_through_gate s), (r_at_goal_pos s),
             (r_currently_collided s), (cnstr_violation s); reflexivity.
  - intros -> -> -> ->. split; reflexivity.
Qed.

Lemma competition_reward_is_additive_witness :
  COST (tracking_attrs COMPETITION 0 true true) = COMPETITION /\
  _get_reward (tracking_attrs COMPETITION 0 true true) = Ok (IntReward (-900)).
Proof.
  split; [reflexivity|].
  destruct (competition_reward_is_additive (tracking_attrs COMPETITION 0 true true) eq_refl)
    as [_ H].
  exact (proj1 (H eq_refl eq_refl eq_refl eq_refl)).
Defined.

(** The dense reward clamps the step index to the last row of the goal
    sequence: the lookup succeeds at every step of a non-empty sequence. *)
Lemma rl_goal_row_clamps (rows : list (list R)) (k : Z) :
  rows <> [] -> 0 <= k ->
  exists row, rl_goal_row rows k = Ok row /\
              nth_error rows (Z.to_nat (Z.min k (Z.of_nat (length rows) - 1))) = Some row.
Proof.
  intros Hne Hk. unfold rl_goal_row.
  assert (Hlen : 0 < Z.of_nat (length rows)) by (destruct rows; simpl; [congruence | lia]).
  set (i := Z.min k (Z.of_nat (length rows) - 1)).
  assert (Hi : 0 <= i < Z.of_nat (length rows)) by (unfold i; lia).
  unfold np_index.
  assert (Hneg : (i <? 0) = false) by (apply Z.ltb_ge; lia).
  assert (Hlo : (0 <=? i) = true) by (apply Z.leb_le; lia).
  assert (Hhi : (i <? Z.of_nat (length rows)) = true) by (apply Z.ltb_lt; lia).
  rewrite Hneg, Hlo, Hhi. simpl.
  destruct (nth_error rows (Z.to_nat i)) as [row|] eqn:E.
  - exists row. split; reflexivity.
  - apply nth_error_None in E. lia.
Qed.

(** The quadratic cost reads the row of the step index itself: past the
    end of the sequence the lookup raises [IndexError]. *)
Lemma quadratic_goal_row_past_horizon (rows : list (list R)) (k : Z) :
  Z.of_nat (length rows) <= k -> quadratic_goal_row rows k = Raise IndexError.
Proof.
  intros Hk. unfold quadratic_goal_row, np_index.
  assert (Hneg : (k <? 0) = false) by (apply Z.ltb_ge; lia).
  assert (Hhi : (k <? Z.of_nat (length rows)) = false) by (apply Z.ltb_ge; lia).
  rewrite Hneg, Hhi, andb_false_r. reflexivity.
Qed.

Lemma quadratic_reward_past_horizon (s : reward_attrs) (rows : list (list R)) :
  COST s = QUADRATIC ->
  X_GOAL s = TrajTracking rows ->
  Z.of_nat (length rows) <= ctrl_step_counter s ->
  _get_reward s = Raise IndexError.
Proof.
  intros Hc Hg Hk. unfold _get_reward. rewrite Hc, Hg.
  rewrite (quadratic_goal_row_past_horizon _ _ Hk). reflexivity.
Qed.

(** C5, on the code.  With a goal sequence of three rows, at control step 3
    the dense reward reads the last row, and the quadratic cost raises
    [IndexError]. *)
Theorem quadratic_cost_goal_lookup_unclamped :
  rl_goal_row [[1; 0]; [2; 0]; [3; 0]]%R 3 = Ok [3; 0]%R /\
  (exists r, _get_reward (tracking_attrs RL_REWARD 3 false false) = Ok (FloatReward r)) /\
  _get_reward (tracking_attrs QUADRATIC 2 false false)
  = Ok (FloatReward
          (-1 * cost_func ONE_D [3; 0] [1] [3; 0] [1] [[1; 0]; [0; 1]] [[1]])%R) /\
  _get_reward (tracking_attrs QUADRATIC 3 false false) = Raise IndexError.
Proof.
  split; [reflexivity|]. split; [eexists; reflexivity|]. split; reflexivity.
Qed.

(* ================================================================= *)
(** ** Properties of the symbolic model *)

Section SymbolicFacts.
Local Open Scope R_scope.

Lemma csRotXYZ_sdf_0 : csRotXYZ_sdf 0 0 0 = I3.
Proof.
  unfold csRotXYZ_sdf, I3, mat3_mul, col3, dot3. rewrite sin_0, cos_0.
  repeat (apply f_equal2); ring.
Qed.

Lemma U_GOAL_even_split (P : quad_params) (q : QuadType) :
  U_GOAL P q = repeat (MASS P * GRAVITY_ACC P / INR (nu q)) (nu q).
Proof.
  destruct q; unfold U_GOAL; simpl; repeat (apply f_equal2); try reflexivity;
    unfold Rdiv; ring.
Qed.




Lemma big_sum_ext (n : nat) (f g : nat -> R) :
  (forall i, (i < n)%nat -> f i = g i) -> big_sum n f = big_sum n g.
Proof.
  induction n as [|n IH]; intros H; simpl; [reflexivity|].
  rewrite IH, (H n); auto.
Qed.

Lemma big_sum_plus (n : nat) (f g : nat -> R) :
  big_sum n (fun i => f i + g i) = big_sum n f + big_sum n g.
Proof. induction n as [|n IH]; simpl; [|rewrite IH]; ring. Qed.

Lemma big_sum_scale_l (n : nat) (c : R) (f : nat -> R) :
  big_sum n (fun i => c * f i) = c * big_sum n f.
Proof. induction n as [|n IH]; simpl; [|rewrite IH]; ring. Qed.

Lemma big_sum_scale_r (n : nat) (c : R) (f : nat -> R) :
  big_sum n (fun i => f i * c) = big_sum n f * c.
Proof. induction n as [|n IH]; simpl; [|rewrite IH]; ring. Qed.

Lemma big_sum_0 (n : nat) (f : nat -> R) :
  (forall i, f i = 0) -> big_sum n f = 0.
Proof.
  intros H. induction n as [|n IH]; simpl; [reflexivity|].
  rewrite IH, H. ring.
Qed.

Lemma big_sum_swap (n m : nat) (f : nat -> nat -> R) :
  big_sum n (fun i => big_sum m (fun j => f i j))
  = big_sum m (fun j => big_sum n (fun i => f i j)).
Proof.
  induction n as [|n IH]; simpl.
  - symmetry. apply big_sum_0. reflexivity.
  - rewrite big_sum_plus, IH. reflexivity.
Qed.

(** The product taken from the left is half the quadratic form. *)
Lemma half_quad_quad_form (n : nat) (e : nat -> R) (M : list (list R)) :
  half_quad n e M = 0.5 * quad_form n e M.
Proof.
  unfold half_quad, quad_form.
  rewrite (big_sum_swap n n), <- big_sum_scale_l.
  apply big_sum_ext. intros j _.
  rewrite <- big_sum_scale_r, <- big_sum_scale_l.
  apply big_sum_ext. intros i _. ring.
Qed.

Lemma half_quad_0 (n : nat) (e : nat -> R) (M : list (list R)) :
  (forall i, e i = 0) -> half_quad n e M = 0.
Proof.
  intros H. unfold half_quad. apply big_sum_0. intros j. rewrite (H j). ring.
Qed.

(** C7.  For every fidelity level the cost function is
    [0.5 (X-Xr)^T Q (X-Xr) + 0.5 (U-Ur)^T R (U-Ur)]; at zero error
    ([Xr = x], [Ur = u]) it is 0 for every [x], [u], [Q] and [R]. *)
Theorem cost_func_is_quadratic_loss (q : QuadType) :
  (forall (X U Xr Ur : list R) (Q R_ : list (list R)),
      cost_func q X U Xr Ur Q R_ = spec_loss q X U Xr Ur Q R_) /\
  (forall (x u : list R) (Q R_ : list (list R)),
      cost_func q x u x u Q R_ = 0).
Proof.
  split.
  - intros X U Xr Ur Q R_. unfold cost_func, spec_loss.
    rewrite !half_quad_quad_form. reflexivity.
  - intros x u Q R_. unfold cost_func.
    rewrite !half_quad_0; [ring | intros i; ring | intros i; ring].
Qed.

(** The cost of the 1D vehicle written out. *)
Example cost_func_one_d (z zd T zr zdr Tr q11 q12 q21 q22 r11 : R) :
  cost_func ONE_D [z; zd] [T] [zr; zdr] [Tr] [[q11; q12]; [q21; q22]] [[r11]]
  = 0.5 * ((z - zr) * q11 * (z - zr) + (z - zr) * q12 * (zd - zdr)
           + (zd - zdr) * q21 * (z - zr) + (zd - zdr) * q22 * (zd - zdr))
    + 0.5 * ((T - Tr) * r11 * (T - Tr)).
Proof.
  unfold cost_func, half_quad, entry, mentry. simpl. ring.
Qed.

End SymbolicFacts.

(* ================================================================= *)
(** ** Properties of [reset] *)

(** An initial target gate at or beyond [NUM_GATES] (other than 0) is
    refused: [reset] raises before any start pose is produced. *)
Lemma reset_rejects_gate_id_beyond_last (e : env) (dr : reset_draws) (g : Z) (ph : physics) :
  NUM_GATES e <= g -> g <> 0 ->
  (exists err, reset_setup e dr (Some g) = Raise err) /\
  (exists err, reset e dr (Some g) ph = Raise err).
Proof.
  intros Hg Hnz.
  assert (H : exists err, reset_setup e dr (Some g) = Raise err).
  { unfold reset_setup.
    destruct (set_obstacle_z _); simpl; [|eexists; reflexivity].
    destruct (load_gates e dr 0 (GATES e)) as [ps|]; simpl; [|eexists; reflexivity].
    destruct (_ && _); [eexists; reflexivity|].
    unfold initial_pose.
    assert (Hz : (g =? 0) = false) by (apply Z.eqb_neq; exact Hnz).
    assert (Hlt : (g <? NUM_GATES e) = false) by (apply Z.ltb_ge; exact Hg).
    rewrite Hz, Hlt. simpl. eexists; reflexivity. }
  split; [exact H|].
  destruct H as (err & H). unfold reset. rewrite H. simpl. eexists; reflexivity.
Qed.

(** C8, on the code.  On the track, which has two gates, [reset] with
    [initial_target_gate_id = -1] returns: the assertion holds since
    [-1 < 2], the pose read is [_gates_pose[-2]], the pose of the first gate,
    and the counter starts at -1. *)
Theorem reset_accepts_negative_gate_id :
  NUM_GATES track = 2 /\
  exists s k i,
    reset track no_draws (Some (-1)) (quiet 0) = Ok (s, k, i) /\
    current_gate s = -1 /\
    current_gate_id i = -1 /\
    INIT_XYZ k = [0.5; -2.5; 1.0]%float /\
    INIT_RPY k = [0; 0; -1.57]%float.
Proof.
  split; [reflexivity|].
  eexists. eexists. eexists.
  split; [vm_compute; reflexivity|]. repeat split.
Qed.

(* ================================================================= *)
(** ** Further properties of [_get_info] *)


(** The collision and goal attributes after a call of [_get_info]. *)
Lemma get_info_fields (e : env) (s s' : episode) (ph : physics) (i : info) :
  _get_info e s ph = Ok (s', i) ->
  collision i = (first_contact (contacts ph), currently_collided s') /\
  currently_collided s' =
    match first_contact (contacts ph) with Some _ => true | None => false end /\
  (at_goal_pos s', steps_at_goal_pos s', task_completed s',
   at_goal_position i, info_task_completed i)
  = goal_progress e s ph (current_gate s').
Proof.
  unfold _get_info.
  destruct (gates_progress e s ph) as [[[cg stepped] n]|] eqn:G; simpl; [|discriminate].
  destruct (goal_progress e s ph cg) as [[[[agp steps] tc] iagp] itc] eqn:Gp.
  intros H. injection H as <- <-. simpl. rewrite Gp. auto.
Qed.



(** X2.  Task completion is sticky: a call of [_get_info] never clears
    [task_completed]. *)
Theorem task_completed_is_sticky (e : env) (s s' : episode) (ph : physics) (i : info) :
  _get_info e s ph = Ok (s', i) ->
  task_completed s = true ->
  task_completed s' = true.
Proof.
  intros E Htc. destruct (get_info_fields _ _ _ _ _ E) as (_ & _ & Hg).
  unfold goal_progress in Hg. rewrite Htc in Hg.
  destruct (current_gate s' =? NUM_GATES e).
  - destruct (QUAD_TYPE e); try (injection Hg as _ _ -> _ _; reflexivity).
    destruct (near_goal ph); simpl in Hg.
    + destruct (CTRL_FREQ e * 2 <? steps_at_goal_pos s + 1);
        injection Hg as _ _ -> _ _; reflexivity.
    + destruct (CTRL_FREQ e * 2 <? 0); injection Hg as _ _ -> _ _; reflexivity.
  - injection Hg as _ _ -> _ _; reflexivity.
Qed.

Lemma completion_inv_step (e : env) (s s' : episode) (ph : physics) (i : info) (n : Z) :
  _get_info e s ph = Ok (s', i) ->
  completion_inv e n s ->
  completion_inv e (n + 1) s'.
Proof.
  intros E (Hn & Hsteps & Htc).
  destruct (get_info_Ok _ _ _ _ _ E) as (Hcg & _).
  destruct (get_info_fields _ _ _ _ _ E) as (_ & _ & Hg).
  assert (Hkeep : task_completed s = true ->
                  current_gate s' = NUM_GATES e /\ QUAD_TYPE e = THREE_D /\
                  CTRL_FREQ e * 2 < n + 1).
  { intros T. destruct (Htc T) as (Hc & Hq & Hlt). repeat split; [|exact Hq|lia].
    rewrite Hcg. destruct (passage_detected e s ph) eqn:D; simpl; [|lia].
    apply passage_detected_guard in D. lia. }
  unfold completion_inv. split; [lia|]. unfold goal_progress in Hg.
  destruct (current_gate s' =? NUM_GATES e) eqn:C.
  - apply Z.eqb_eq in C.
    destruct (QUAD_TYPE e) eqn:Q;
      try (injection Hg as _ -> -> _ _; split; [lia | exact Hkeep]).
    destruct (near_goal ph); simpl in Hg.
    + destruct (CTRL_FREQ e * 2 <? steps_at_goal_pos s + 1) eqn:L;
        injection Hg as _ -> -> _ _; (split; [lia|]).
      * intros _. apply Z.ltb_lt in L. repeat split; [exact C | lia].
      * exact Hkeep.
    + destruct (CTRL_FREQ e * 2 <? 0) eqn:L;
        injection Hg as _ -> -> _ _; (split; [lia|]).
      * intros _. apply Z.ltb_lt in L. repeat split; [exact C | lia].
      * exact Hkeep.
  - injection Hg as _ -> -> _ _. split; [lia | exact Hkeep].
Qed.

Lemma completion_inv_run (e : env) (steps : list physics) :
  forall (s s' : episode) (n : Z),
    run e s steps = Ok s' ->
    completion_inv e n s ->
    completion_inv e (n + Z.of_nat (length steps)) s'.
Proof.
  induction steps as [|ph steps IH]; intros s s' n Hrun Hinv.
  - simpl in Hrun. injection Hrun as <-. simpl. now rewrite Z.add_0_r.
  - simpl in Hrun.
    destruct (_get_info e s ph) as [[s1 i]|] eqn:E; simpl in Hrun; [|discriminate].
    pose proof (completion_inv_step _ _ _ _ _ _ E Hinv) as H1.
    pose proof (IH _ _ _ Hrun H1) as H2.
    replace (n + Z.of_nat (length (ph :: steps))) with (n + 1 + Z.of_nat (length steps))
      by (simpl length; lia).
    exact H2.
Qed.

(** X3.  In an episode, the task is completed only when every gate has been
    passed, the vehicle is the 3D one, and more than [2 * CTRL_FREQ] calls of
    [_get_info] have been made; the dwell counter never exceeds the number of
    calls. *)
Theorem task_completed_only_after_gates_and_dwell
        (e : env) (dr : reset_draws) (g : option Z) (s0 s : episode) (k : init_kin)
        (steps : list physics) :
  reset_setup e dr g = Ok (s0, k) ->
  run e s0 steps = Ok s ->
  steps_at_goal_pos s <= Z.of_nat (length steps) /\
  (task_completed s = true ->
   current_gate s = NUM_GATES e /\ QUAD_TYPE e = THREE_D /\
   2 * CTRL_FREQ e < Z.of_nat (length steps)).
Proof.
  intros Hreset Hrun.
  assert (H0 : completion_inv e 0 s0).
  { unfold reset_setup in Hreset.
    destruct (set_obstacle_z _); simpl in Hreset; [|discriminate].
    destruct (load_gates e dr 0 (GATES e)); simpl in Hreset; [|discriminate].
    destruct (_ && _); [discriminate|].
    destruct (initial_pose _ _ _ _); simpl in Hreset; [|discriminate].
    injection Hreset as <- <-. unfold completion_inv. simpl.
    repeat split; try lia; discriminate. }
  destruct (completion_inv_run e steps s0 s 0 Hrun H0) as (_ & Hs & Htc).
  split; [exact Hs|]. intros T. destruct (Htc T) as (Hc & Hq & Hn).
  repeat split; [exact Hc | exact Hq | lia].
Qed.

Lemma task_completed_only_after_gates_and_dwell_witness :
  let near := {| pyb_step_counter := 700; contacts := no_contact;
                 rays := []; near_goal := true |} in
  let steps := ([quiet 0; crossing 600; crossing 633] ++ repeat near 61)%list in
  exists s0 k s,
    reset_setup track no_draws None = Ok (s0, k) /\
    run track s0 steps = Ok s /\
    task_completed s = true /\
    current_gate s = NUM_GATES track /\
    2 * CTRL_FREQ track < Z.of_nat (length steps).
Proof.
  intros near steps.
  destruct (reset_setup track no_draws None) as [[s0 k]|] eqn:E0;
    [|vm_compute in E0; discriminate].
  destruct (run track s0 steps) as [s|] eqn:E1.
  - exists s0, k, s. split; [reflexivity|]. split; [exact E1|].
    assert (T : task_completed s = true).
    { vm_compute in E0. injection E0 as <- <-. vm_compute in E1.
      injection E1 as <-. reflexivity. }
    split; [exact T|].
    destruct (task_completed_only_after_gates_and_dwell
                track no_draws None s0 s k steps E0 E1) as (_ & H).
    destruct (H T) as (Hc & _ & Hn). split; assumption.
  - vm_compute in E0. injection E0 as <- <-. vm_compute in E1. discriminate.
Defined.

Lemma task_completed_is_sticky_witness :
  let s := {| current_gate := 2; stepped_through_gate := true;
              currently_collided := false; at_goal_pos := true;
              steps_at_goal_pos := 61; task_completed := true;
              _gates_pose := []; ray_tests := 2 |} in
  exists s' i, _get_info track s (quiet 800) = Ok (s', i) /\
               steps_at_goal_pos s' = 0 /\ task_completed s' = true.
Proof.
  intros s.
  destruct (_get_info track s (quiet 800)) as [[s' i]|] eqn:E.
  - exists s', i. split; [reflexivity|]. split.
    + vm_compute in E. injection E as <- <-. reflexivity.
    + exact (task_completed_is_sticky track s s' (quiet 800) i E eq_refl).
  - vm_compute in E. discriminate.
Defined.

(** X4.  Once every gate is passed nothing moves the gate attributes any
    more: after any later calls of [_get_info] that returned, the counter is
    still [NUM_GATES], no further ray test was asked for, and
    [stepped_through_gate] has kept its value. *)
Theorem all_gates_passed_is_absorbing (e : env) (steps : list physics) :
  forall s s' : episode,
    current_gate s = NUM_GATES e ->
    run e s steps = Ok s' ->
    current_gate s' = NUM_GATES e /\
    ray_tests s' = ray_tests s /\
    stepped_through_gate s' = stepped_through_gate s.
Proof.
  induction steps as [|ph steps IH]; intros s s' Hcg Hrun; simpl in Hrun.
  - injection Hrun as <-. auto.
  - destruct (_get_info e s ph) as [[s1 i]|] eqn:E; simpl in Hrun; [|discriminate].
    assert (G : gate_guard e s ph = false).
    { unfold gate_guard. rewrite Hcg, Z.ltb_irrefl. apply andb_false_r. }
    destruct (get_info_Ok _ _ _ _ _ E) as (H1 & H2 & H3 & _).
    unfold passage_detected in H1. rewrite G in H1, H2, H3. simpl in H1.
    destruct (IH s1 s') as (Hc & Hr & Hf); [lia | exact Hrun |].
    repeat split; [exact Hc | congruence | congruence].
Qed.

Lemma all_gates_passed_is_absorbing_witness :
  let s := {| current_gate := 2; stepped_through_gate := true;
              currently_collided := false; at_goal_pos := false;
              steps_at_goal_pos := 0; task_completed := false;
              _gates_pose := []; ray_tests := 2 |} in
  exists s', run track s [crossing 700; crossing 733; quiet 766] = Ok s' /\
             current_gate s' = NUM_GATES track /\
             ray_tests s' = ray_tests s /\
             stepped_through_gate s' = stepped_through_gate s.
Proof.
  intros s.
  destruct (run track s [crossing 700; crossing 733; quiet 766]) as [s'|] eqn:E.
  - exists s'. split; [reflexivity|].
    exact (all_gates_passed_is_absorbing track _ s s' eq_refl E).
  - vm_compute in E. discriminate.
Defined.

(* ================================================================= *)
(** ** Further properties of [reset] *)

Lemma np_index_Ok_iff {A : Type} (l : list A) (i : Z) :
  (exists a, np_index l i = Ok a) <->
  - Z.of_nat (length l) <= i < Z.of_nat (length l).
Proof.
  unfold np_index. split.
  - intros (a & H).
    destruct (i <? 0) eqn:Neg;
      destruct ((0 <=? _) && (_ <? _)) eqn:R; try discriminate;
      apply andb_true_iff in R as [R1 R2];
      apply Z.leb_le in R1; apply Z.ltb_lt in R2;
      [apply Z.ltb_lt in Neg | apply Z.ltb_ge in Neg]; lia.
  - intros Hi.
    destruct (i <? 0) eqn:Neg; [apply Z.ltb_lt in Neg | apply Z.ltb_ge in Neg].
    + assert (R1 : (0 <=? i + Z.of_nat (length l)) = true) by (apply Z.leb_le; lia).
      assert (R2 : (i + Z.of_nat (length l) <? Z.of_nat (length l)) = true)
        by (apply Z.ltb_lt; lia).
      rewrite R1, R2. simpl.
      destruct (nth_error l (Z.to_nat (i + Z.of_nat (length l)))) eqn:E;
        [eexists; reflexivity|].
      apply nth_error_None in E. lia.
    + assert (R1 : (0 <=? i) = true) by (apply Z.leb_le; lia).
      assert (R2 : (i <? Z.of_nat (length l)) = true) by (apply Z.ltb_lt; lia).
      rewrite R1, R2. simpl.
      destruct (nth_error l (Z.to_nat i)) eqn:E; [eexists; reflexivity|].
      apply nth_error_None in E. lia.
Qed.

Lemma np_index_nonneg {A : Type} (l : list A) (i : Z) (a : A) :
  0 <= i -> np_index l i = Ok a -> nth_error l (Z.to_nat i) = Some a.
Proof.
  intros Hi. unfold np_index.
  assert (Neg : (i <? 0) = false) by (apply Z.ltb_ge; lia). rewrite Neg.
  destruct ((0 <=? i) && (i <? _)); [|discriminate].
  destruct (nth_error l (Z.to_nat i)); [|discriminate].
  intros H. injection H as ->. reflexivity.
Qed.

Lemma np_index_dec {A : Type} (l : list A) (i : Z) :
  ((- Z.of_nat (length l) <= i < Z.of_nat (length l))%Z /\ exists a, np_index l i = Ok a) \/
  (~ (- Z.of_nat (length l) <= i < Z.of_nat (length l))%Z /\ np_index l i = Raise IndexError).
Proof.
  destruct (np_index l i) as [a|err] eqn:E.
  - left. split; [|eexists; reflexivity]. apply np_index_Ok_iff. eexists; eassumption.
  - right. split.
    + intros H. apply np_index_Ok_iff in H as (a & Ha). congruence.
    + unfold np_index in E.
      destruct ((0 <=? _)%Z && (_ <? _)%Z); [|congruence].
      destruct (nth_error l _); congruence.
Qed.



(** The pose stored for the [j]-th gate. *)
Lemma load_gates_nth (e : env) (dr : reset_draws) (gs : list gate) :
  forall i ps j row,
    load_gates e dr i gs = Ok ps ->
    nth_error ps j = Some row ->
    exists g h,
      nth_error gs j = Some g /\ gate_height g = Ok h /\
      row = disturbed_pose [g_x g; g_y g; g_z g] [g_roll g; g_pitch g; g_yaw g]
              (maze_offsets (RANDOMIZED_GATES_AND_OBS e) (gate_draws dr (i + j)) h).
Proof.
  induction gs as [|g gs IH]; intros i ps j row; simpl.
  - intros H. injection H as <-. destruct j; discriminate.
  - destruct (gate_height g) as [h|] eqn:Eh; simpl; [|discriminate].
    destruct (load_gates e dr (S i) gs) as [rest|] eqn:Er; simpl; [|discriminate].
    intros H. injection H as <-. destruct j as [|j]; simpl.
    + intros H. injection H as <-. exists g, h. rewrite Nat.add_0_r. auto.
    + intros H. destruct (IH _ _ _ _ Er H) as (g' & h' & H1 & H2 & H3).
      exists g', h'. replace (i + S j)%nat with (S i + j)%nat by lia. auto.
Qed.




Lemma maze_offsets_shape (randomized : bool) (draws : float * float * float) (h : float) :
  exists o1 o2 d3,
    maze_offsets randomized draws h = ([o1; o2; h], [0; 0; d3])%float /\
    (randomized = false -> o1 = 0%float /\ o2 = 0%float /\ d3 = 0%float).
Proof.
  unfold maze_offsets. destruct randomized.
  - destruct draws as [[d1 d2] d3]. exists d1, d2, d3. split; [reflexivity | discriminate].
  - exists 0%float, 0%float, 0%float. auto.
Qed.

(** X6.  With an initial target gate [g > 0], [reset] starts the vehicle at
    rest in the previous gate, number [g - 1]: at its nominal position plus
    the randomisation offsets, raised by the height of its type, with its
    nominal orientation plus the yaw disturbance; the counter starts at [g].
    Without randomisation the offsets and the disturbance are 0. *)
Theorem reset_starts_at_previous_gate (e : env) (dr : reset_draws) (g : Z)
        (s : episode) (k : init_kin) :
  reset_setup e dr (Some g) = Ok (s, k) ->
  0 < g ->
  exists gt h o1 o2 d3,
    nth_error (GATES e) (Z.to_nat (g - 1)) = Some gt /\
    gate_height gt = Ok h /\
    maze_offsets (RANDOMIZED_GATES_AND_OBS e) (gate_draws dr (Z.to_nat (g - 1))) h
    = ([o1; o2; h], [0; 0; d3])%float /\
    (RANDOMIZED_GATES_AND_OBS e = false -> o1 = 0%float /\ o2 = 0%float /\ d3 = 0%float) /\
    INIT_XYZ k = [g_x gt + o1; g_y gt + o2; g_z gt + h]%float /\
    INIT_RPY k = [g_roll gt + 0; g_pitch gt + 0; g_yaw gt + d3]%float /\
    INIT_VEL k = [0; 0; 0]%float /\
    INIT_ANG_VEL k = [0; 0; 0]%float /\
    current_gate s = g /\ g < NUM_GATES e.
Proof.
  intros Hreset Hg. unfold reset_setup in Hreset.
  destruct (set_obstacle_z _); cbn [bind] in Hreset; [|discriminate].
  destruct (load_gates e dr 0 (GATES e)) as [ps|] eqn:El; cbn [bind] in Hreset;
    [|discriminate].
  destruct (_ && _); [discriminate|].
  unfold initial_pose in Hreset.
  assert (Z0 : (g =? 0) = false) by (apply Z.eqb_neq; lia).
  rewrite Z0 in Hreset. cbn [negb] in Hreset.
  destruct (g <? NUM_GATES e) eqn:L; cbn [bind] in Hreset; [|discriminate].
  apply Z.ltb_lt in L.
  destruct (np_index ps (g - 1)) as [row|] eqn:Er; cbn [bind] in Hreset; [|discriminate].
  injection Hreset as <- <-.
  apply np_index_nonneg in Er; [|lia].
  destruct (load_gates_nth _ _ _ _ _ _ _ El Er) as (gt & h & Hgt & Hh & Hrow).
  destruct (maze_offsets_shape (RANDOMIZED_GATES_AND_OBS e)
                               (gate_draws dr (Z.to_nat (g - 1))) h)
    as (o1 & o2 & d3 & Hoff & Hzero).
  exists gt, h, o1, o2, d3.
  simpl Nat.add in Hrow. rewrite Hoff in Hrow. subst row.
  repeat split; try assumption; try reflexivity; apply Hzero; assumption.
Qed.

Lemma reset_starts_at_previous_gate_witness :
  exists s k,
    reset_setup track no_draws (Some 1) = Ok (s, k) /\
    INIT_XYZ k = [0.5; -2.5; 1]%float /\
    INIT_VEL k = [0; 0; 0]%float /\
    current_gate s = 1.
Proof.
  destruct (reset_setup track no_draws (Some 1)) as [[s k]|] eqn:E;
    [|vm_compute in E; discriminate].
  exists s, k. split; [reflexivity|].
  destruct (reset_starts_at_previous_gate track no_draws 1 s k E)
    as (gt & h & o1 & o2 & d3 & Hgt & Hh & _ & Hz & Hxyz & _ & Hvel & _ & Hcg & _);
    [lia|].
  destruct (Hz eq_refl) as (-> & -> & _).
  simpl in Hgt. injection Hgt as <-. vm_compute in Hh. injection Hh as <-.
  repeat split; assumption.
Defined.



(* ================================================================= *)
(** ** Further properties of [_get_done] *)

Lemma done_on_flags_with_state (s : done_attrs) (st : list float) :
  done_on_flags (with_state s st) = done_on_flags s.
Proof. reflexivity. Qed.

Lemma bool_eq_of_iff (b b' : bool) (P : Prop) :
  (b = true <-> P) -> (b' = true <-> P) -> b = b'.
Proof.
  intros H H'. destruct b, b'; try reflexivity.
  - symmetry. apply H'. now apply H.
  - apply H. now apply H'.
Qed.

(** X8.  [_get_done] does not look at the dimensions its mask leaves out
    (the velocities and body rates): two states of the right size that agree
    on the selected dimensions give the same flag. *)
Theorem get_done_ignores_unmasked_dimensions (s : done_attrs) (st : list float) :
  done_shapes s ->
  length st = nx (d_QUAD_TYPE s) ->
  (forall i, nth_error (mask (d_QUAD_TYPE s)) i = Some 1 ->
             nth_error st i = nth_error (d_state s) i) ->
  _get_done (with_state s st) = _get_done s.
Proof.
  intros Hshape Hlen Hagree.
  assert (Hshape' : done_shapes (with_state s st)).
  { destruct Hshape as (_ & Hl & Hh). repeat split; assumption. }
  destruct (out_of_bound_spec s Hshape) as (b & Hb & Hspec).
  destruct (out_of_bound_spec _ Hshape') as (b' & Hb' & Hspec').
  assert (Heq : b' = b).
  { apply (bool_eq_of_iff _ _ (selected_out_of_bound s)); [|exact Hspec].
    rewrite Hspec'. unfold selected_out_of_bound. simpl.
    split; intros (i & x & lo & hi & Hx & Hlo & Hhi & Hm & Hout);
      exists i, x, lo, hi; repeat split; try assumption.
    - rewrite <- (Hagree i Hm). exact Hx.
    - rewrite (Hagree i Hm). exact Hx. }
  unfold _get_done. rewrite Hb, Hb', Heq. reflexivity.
Qed.

Lemma get_done_ignores_unmasked_dimensions_witness :
  let s := {| d_QUAD_TYPE := ONE_D;
              d_done_on_out_of_bound := true;
              d_DONE_ON_COLLISION := false;
              d_DONE_ON_COMPLETION := false;
              d_state := [1; 0]%float;
              d_state_space_low := [0; -100]%float;
              d_state_space_high := [2.5; 100]%float;
              d_currently_collided := false;
              d_task_completed := false |} in
  _get_done (with_state s [1; 1000]%float) = _get_done s /\
  _get_done s = Some false.
Proof.
  intros s. split; [|reflexivity].
  apply (get_done_ignores_unmasked_dimensions s [1; 1000]%float).
  - repeat split; reflexivity.
  - reflexivity.
  - intros [|[|i]] H; simpl in H; try discriminate; [reflexivity|].
    destruct i; discriminate.
Defined.

Lemma SFeqb_irrefl_nan (f : SpecFloat.spec_float) :
  SpecFloat.SFeqb f f = false -> f = SpecFloat.S754_nan.
Proof.
  destruct f as [b|b| |b m e]; unfold SpecFloat.SFeqb, SpecFloat.SFcompare;
    try reflexivity.
  - discriminate.
  - destruct b; discriminate.
  - rewrite Z.compare_refl, Pos.compare_refl.
    destruct b; simpl; rewrite ?Pos.compare_refl; discriminate.
Qed.

(** A comparison with NaN is false. *)
Lemma nan_compares_false (x y : float) :
  PrimFloat.is_nan x = true -> (x <? y)%float = false /\ (y <? x)%float = false.
Proof.
  unfold PrimFloat.is_nan. intros H. apply negb_true_iff in H.
  rewrite FloatAxioms.eqb_spec in H. apply SFeqb_irrefl_nan in H.
  rewrite !FloatAxioms.ltb_spec, H. split; [reflexivity|].
  unfold SpecFloat.SFltb, SpecFloat.SFcompare. destruct (Prim2SF y); reflexivity.
Qed.

(** X9.  A state entry that is NaN is never out of bounds: when every entry
    of the state is NaN the out-of-bound check does not end the episode, and
    [_get_done] is decided by the collision and completion flags alone. *)
Theorem get_done_nan_state_never_out_of_bound (s : done_attrs) :
  done_shapes s ->
  Forall (fun x => PrimFloat.is_nan x = true) (d_state s) ->
  ~ selected_out_of_bound s /\ _get_done s = Some (done_on_flags s).
Proof.
  intros Hshape Hnan.
  assert (Hno : ~ selected_out_of_bound s).
  { intros (i & x & lo & hi & Hx & _ & _ & _ & Hout).
    rewrite Forall_forall in Hnan.
    destruct (nan_compares_false x lo (Hnan x (nth_error_In _ _ Hx))) as [H1 _].
    destruct (nan_compares_false x hi (Hnan x (nth_error_In _ _ Hx))) as [_ H2].
    destruct Hout; congruence. }
  split; [exact Hno|].
  destruct (out_of_bound_spec s Hshape) as (b & Hb & Hspec).
  unfold _get_done. rewrite Hb.
  destruct b; [exfalso; apply Hno, Hspec; reflexivity|].
  destruct (d_done_on_out_of_bound s); reflexivity.
Qed.

Lemma get_done_nan_state_never_out_of_bound_witness :
  let s := {| d_QUAD_TYPE := ONE_D;
              d_done_on_out_of_bound := true;
              d_DONE_ON_COLLISION := true;
              d_DONE_ON_COMPLETION := true;
              d_state := [nan; nan]%float;
              d_state_space_low := [0; -100]%float;
              d_state_space_high := [2.5; 100]%float;
              d_currently_collided := false;
              d_task_completed := false |} in
  _get_done s = Some false.
Proof.
  intros s.
  assert (H : done_shapes s) by (repeat split; reflexivity).
  assert (N : Forall (fun x => PrimFloat.is_nan x = true) (d_state s))
    by (repeat constructor).
  exact (proj2 (get_done_nan_state_never_out_of_bound s H N)).
Defined.

(* ================================================================= *)
(** ** Further properties of [_get_reward] *)

Section RewardFacts.
Local Open Scope R_scope.

(** The three shapes of a numpy element-wise operation. *)
Lemma np_binop_cases (f : R -> R -> R) (a b : list R) :
  (exists c, a = [c] /\ np_binop f a b = map (f c) b) \/
  (exists c, b = [c] /\ np_binop f a b = map (fun x => f x c) a) \/
  (length a <> 1%nat /\ length b <> 1%nat /\
   np_binop f a b = map (fun p : R * R => f (fst p) (snd p)) (combine a b)).
Proof.
  destruct a as [|x [|x' a]].
  - destruct b as [|y [|y' b]].
    + right. right. repeat split; discriminate.
    + right. left. exists y. split; reflexivity.
    + right. right. repeat split; discriminate.
  - left. exists x. split; reflexivity.
  - destruct b as [|y [|y' b]].
    + right. right. repeat split; discriminate.
    + right. left. exists y. split; reflexivity.
    + right. right. repeat split; discriminate.
Qed.

Lemma np_binop_Forall (f : R -> R -> R) (P Q : R -> Prop) (a b : list R) :
  (forall x y, Q y -> P (f x y)) ->
  Forall Q b -> Forall P (np_binop f a b).
Proof.
  intros Hf Hb. rewrite Forall_forall in Hb. apply Forall_forall. intros v Hv.
  destruct (np_binop_cases f a b) as [(c & _ & E) | [(c & Eb & E) | (_ & _ & E)]];
    rewrite E in Hv; apply in_map_iff in Hv.
  - destruct Hv as (y & <- & Hy). apply Hf, Hb, Hy.
  - destruct Hv as (x & <- & _). apply Hf, Hb. rewrite Eb. now left.
  - destruct Hv as ([x y] & <- & Hp). apply Hf, Hb.
    eapply in_combine_r; eassumption.
Qed.

Lemma combine_map_self (g : R -> R -> R) (w e : list R) :
  forall p, In p (combine (map (fun q : R * R => g (fst q) (snd q)) (combine w e)) e) ->
            exists x y, In x w /\ p = (g x y, y).
Proof.
  revert e. induction w as [|x w IH]; intros [|y e] p; simpl; try contradiction.
  intros [<- | H]; [exists x, y; auto|].
  destruct (IH _ _ H) as (x' & y' & Hx & ->). exists x', y'. auto.
Qed.

Lemma combine_map_l (g : R -> R) (e : list R) :
  forall p, In p (combine (map g e) e) -> exists y, p = (g y, y).
Proof.
  induction e as [|y e IH]; intros p; simpl; [contradiction|].
  intros [<- | H]; [exists y; reflexivity | apply IH, H].
Qed.

(** Every entry of [w * e * e] is a weight times a square. *)
Lemma weighted_squares_entries (w e : list R) :
  Forall (fun v => exists c x, In c w /\ v = c * x * x)
         (np_binop Rmult (np_binop Rmult w e) e).
Proof.
  apply Forall_forall. intros v Hv.
  destruct (np_binop_cases Rmult w e) as [(c & Ew & E1) | [(y & Ee & E1) | (Lw & Le & E1)]];
    rewrite E1 in Hv.
  - (* scalar weight *)
    destruct (np_binop_cases Rmult (map (Rmult c) e) e)
      as [(c' & Ep & E2) | [(y & Ee & E2) | (_ & _ & E2)]];
      rewrite E2 in Hv; apply in_map_iff in Hv.
    + destruct e as [|y [|y' e]]; try discriminate. injection Ep as <-.
      destruct Hv as (z & <- & [<- | []]). exists c, y. rewrite Ew. split; [now left | ring].
    + subst e. destruct Hv as (z & <- & [<- | []]).
      exists c, y. rewrite Ew. split; [now left | reflexivity].
    + destruct Hv as (p & <- & Hp). apply combine_map_l in Hp as (y & ->).
      exists c, y. rewrite Ew. split; [now left | reflexivity].
  - (* scalar error *)
    subst e.
    destruct (np_binop_cases Rmult (map (fun x => x * y) w) [y])
      as [(c' & Ep & E2) | [(y' & Ee & E2) | (_ & Le & _)]];
      [| |exfalso; apply Le; reflexivity]; rewrite E2 in Hv; apply in_map_iff in Hv.
    + destruct w as [|c [|c'' w]]; try discriminate. injection Ep as <-.
      destruct Hv as (z & <- & [<- | []]). exists c, y. split; [now left | ring].
    + injection Ee as <-. destruct Hv as (z & <- & Hz).
      apply in_map_iff in Hz as (c & <- & Hc). exists c, y. split; [exact Hc | reflexivity].
  - (* same shape *)
    set (P := map (fun p : R * R => fst p * snd p) (combine w e)) in *.
    destruct (np_binop_cases Rmult P e)
      as [(c' & Ep & E2) | [(y & Ee & E2) | (_ & _ & E2)]];
      rewrite E2 in Hv; apply in_map_iff in Hv.
    + exfalso. assert (L : length P = 1%nat) by (rewrite Ep; reflexivity).
      unfold P in L. rewrite length_map, length_combine in L.
      destruct (Nat.min_dec (length w) (length e)) as [M | M]; rewrite M in L; auto.
    + exfalso. apply Le. rewrite Ee. reflexivity.
    + destruct Hv as (p & <- & Hp). unfold P in Hp.
      apply (combine_map_self Rmult) in Hp as (x & y & Hx & ->).
      exists x, y. split; [exact Hx | reflexivity].
Qed.

Lemma fold_left_Rplus (l : list R) :
  forall a, fold_left Rplus l a = a + fold_left Rplus l 0.
Proof.
  induction l as [|x l IH]; intros a; simpl; [ring|].
  rewrite (IH (a + x)), (IH (0 + x)). ring.
Qed.

Lemma np_sum_nonneg (l : list R) :
  Forall (fun v => 0 <= v) l -> 0 <= np_sum l.
Proof.
  unfold np_sum. induction 1 as [|x l Hx _ IH]; simpl; [lra|].
  rewrite fold_left_Rplus. lra.
Qed.

Lemma np_sum_zeros (l : list R) :
  Forall (fun v => v = 0) l -> np_sum l = 0.
Proof.
  unfold np_sum. induction 1 as [|x l Hx _ IH]; simpl; [reflexivity|].
  rewrite fold_left_Rplus, IH, Hx. ring.
Qed.

Lemma weighted_squares_nonneg (w e : list R) :
  Forall (fun c => 0 <= c) w ->
  0 <= np_sum (np_binop Rmult (np_binop Rmult w e) e).
Proof.
  intros Hw. apply np_sum_nonneg.
  eapply Forall_impl; [|apply weighted_squares_entries].
  intros v (c & x & Hc & ->). rewrite Forall_forall in Hw.
  pose proof (Hw c Hc). nra.
Qed.

Lemma rl_dist_nonneg (s : reward_attrs) (se ae : list R) :
  Forall (fun c => 0 <= c) (rew_state_weight s) ->
  Forall (fun c => 0 <= c) (rew_act_weight s) ->
  0 <= rl_dist s se ae.
Proof.
  intros Hs Ha. unfold rl_dist.
  pose proof (weighted_squares_nonneg _ se Hs).
  pose proof (weighted_squares_nonneg _ ae Ha). lra.
Qed.

Lemma exp_neg_unit (d : R) : 0 <= d -> 0 < exp (- d) <= 1.
Proof.
  intros Hd. split; [apply exp_pos|].
  destruct (Req_dec d 0) as [-> | Hne].
  - rewrite Ropp_0, exp_0. lra.
  - rewrite <- exp_0. left. apply exp_increasing. lra.
Qed.

(** The reward of the dense policy, when the goal row is found. *)
Lemma dense_reward_Ok (s : reward_attrs) (r : reward) :
  COST s = RL_REWARD ->
  _get_reward s = Ok r ->
  exists x_goal,
    (X_GOAL s = Stabilization x_goal \/
     exists rows, X_GOAL s = TrajTracking rows /\
                  rl_goal_row rows (ctrl_step_counter s) = Ok x_goal) /\
    r = FloatReward
          (let rew := - rl_dist s (np_binop Rminus (state s) x_goal) (act_error s) in
           if rew_exponential s then exp rew else rew).
Proof.
  intros Hc. unfold _get_reward. rewrite Hc. fold (act_error s).
  destruct (X_GOAL s) as [x_goal | rows].
  - cbn [bind]. intros H. injection H as <-. exists x_goal. split; [now left | reflexivity].
  - destruct (rl_goal_row rows (ctrl_step_counter s)) as [x_goal|] eqn:E; cbn [bind];
      [|discriminate].
    intros H. injection H as <-. exists x_goal. split; [|reflexivity].
    right. exists rows. auto.
Qed.

(** X10.  With non-negative weights the dense reward is never positive, and
    its exponential form lies between 0 and 1. *)
Theorem dense_reward_range (s : reward_attrs) (r : R) :
  COST s = RL_REWARD ->
  Forall (fun c => 0 <= c) (rew_state_weight s) ->
  Forall (fun c => 0 <= c) (rew_act_weight s) ->
  _get_reward s = Ok (FloatReward r) ->
  if rew_exponential s then 0 <= r <= 1 else r <= 0.
Proof.
  intros Hc Hs Ha E.
  destruct (dense_reward_Ok s _ Hc E) as (x_goal & _ & Hr).
  injection Hr as ->. cbv zeta.
  pose proof (rl_dist_nonneg s (np_binop Rminus (state s) x_goal) (act_error s) Hs Ha).
  destruct (rew_exponential s); [|lra].
  destruct (exp_neg_unit _ H). lra.
Qed.

Lemma dense_reward_range_witness :
  let s := {| r_QUAD_TYPE := ONE_D; COST := RL_REWARD;
              X_GOAL := Stabilization [1; 0];
              r_U_GOAL := [1];
              state := [3; 2];
              current_preprocessed_action := [2];
              rew_state_weight := [1]; rew_act_weight := [1 / 10000];
              rew_exponential := true;
              Q_weight := []; R_weight := [];
              ctrl_step_counter := 0%Z;
              r_stepped_through_gate := false; r_at_goal_pos := false;
              r_currently_collided := false; cnstr_violation := false |} in
  exists r, _get_reward s = Ok (FloatReward r) /\ 0 <= r <= 1.
Proof.
  intros s. eexists. split; [reflexivity|].
  apply (dense_reward_range s); try reflexivity; repeat constructor; simpl; lra.
Defined.

Lemma np_binop_minus_self (a : list R) :
  Forall (fun v => v = 0) (np_binop Rminus a a).
Proof.
  apply Forall_forall. intros v Hv.
  destruct (np_binop_cases Rminus a a) as [(c & Ea & E) | [(c & Ea & E) | (_ & _ & E)]];
    rewrite E in Hv; apply in_map_iff in Hv.
  - rewrite Ea in Hv. destruct Hv as (y & <- & [<- | []]). ring.
  - rewrite Ea in Hv. destruct Hv as (y & <- & [<- | []]). ring.
  - destruct Hv as ([x y] & <- & Hp). simpl.
    assert (x = y); [|subst; ring].
    clear E. induction a as [|z a IH]; simpl in Hp; [contradiction|].
    destruct Hp as [Hp | Hp]; [congruence | auto].
Qed.

Lemma weighted_squares_zero (w e : list R) :
  Forall (fun v => v = 0) e ->
  np_sum (np_binop Rmult (np_binop Rmult w e) e) = 0.
Proof.
  intros He. apply np_sum_zeros.
  apply (np_binop_Forall Rmult _ (fun v => v = 0)); [|exact He].
  intros x y ->. ring.
Qed.

(** X11.  At the reference of the stabilisation task (the state is [X_GOAL]
    and the action is [U_GOAL]) a reward that is returned is 0 under the
    dense policy, or 1 in its exponential form, and 0 under the quadratic
    policy, whatever the weights. *)
Theorem reward_at_reference (s : reward_attrs) (r : R) :
  X_GOAL s = Stabilization (state s) ->
  current_preprocessed_action s = r_U_GOAL s ->
  _get_reward s = Ok (FloatReward r) ->
  (COST s = RL_REWARD -> r = if rew_exponential s then 1 else 0) /\
  (COST s = QUADRATIC -> r = 0).
Proof.
  intros Hg Ha. unfold _get_reward. rewrite Hg, Ha.
  destruct (COST s); cbn [bind]; intros H; [| |discriminate H].
  - injection H as <-. split; [intros _ | discriminate].
    unfold rl_dist.
    rewrite !weighted_squares_zero by apply np_binop_minus_self.
    replace (- (0 + 0)) with 0 by ring.
    destruct (rew_exponential s); [apply exp_0 | reflexivity].
  - injection H as <-. split; [discriminate | intros _].
    unfold cost_func.
    rewrite !half_quad_0; [ring | intros i; ring | intros i; ring].
Qed.

Lemma reward_at_reference_witness :
  let s := {| r_QUAD_TYPE := TWO_D; COST := QUADRATIC;
              X_GOAL := Stabilization [1; 0; 1; 0; 0; 0];
              r_U_GOAL := [1; 1];
              state := [1; 0; 1; 0; 0; 0];
              current_preprocessed_action := [1; 1];
              rew_state_weight := [1]; rew_act_weight := [1];
              rew_exponential := true;
              Q_weight := [[5; 0; 0; 0; 0; 0]; [0; 1; 0; 0; 0; 0]; [0; 0; 5; 0; 0; 0];
                           [0; 0; 0; 1; 0; 0]; [0; 0; 0; 0; 1; 0]; [0; 0; 0; 0; 0; 1]];
              R_weight := [[1; 0]; [0; 1]];
              ctrl_step_counter := 0%Z;
              r_stepped_through_gate := false; r_at_goal_pos := false;
              r_currently_collided := false; cnstr_violation := false |} in
  exists r, _get_reward s = Ok (FloatReward r) /\ r = 0.
Proof.
  intros s. eexists. split; [reflexivity|].
  exact (proj2 (reward_at_reference s _ eq_refl eq_refl eq_refl) eq_refl).
Defined.

End RewardFacts.

(** X12.  The competition reward lies between -1100 and 200; a step in
    collision earns at most -800 and a step without collision at least
    -100. *)
Theorem competition_reward_bounds (s : reward_attrs) (z : Z) :
  COST s = COMPETITION ->
  _get_reward s = Ok (IntReward z) ->
  -1100 <= z <= 200 /\
  (r_currently_collided s = true -> z <= -800) /\
  (r_currently_collided s = false -> -100 <= z).
Proof.
  intros Hc. unfold _get_reward. rewrite Hc.
  destruct (r_stepped_through_gate s), (r_at_goal_pos s),
           (r_currently_collided s), (cnstr_violation s);
    intros H; injection H as <-; repeat split; intros; try discriminate; lia.
Qed.

Lemma competition_reward_bounds_witness :
  _get_reward (tracking_attrs COMPETITION 0 true true) = Ok (IntReward (-900)) /\
  -1100 <= -900 <= 200.
Proof.
  assert (E : _get_reward (tracking_attrs COMPETITION 0 true true) = Ok (IntReward (-900)))
    by reflexivity.
  split; [exact E|].
  exact (proj1 (competition_reward_bounds
                  (tracking_attrs COMPETITION 0 true true) (-900) eq_refl E)).
Defined.

(** X13.  Under trajectory tracking with a non-empty goal sequence, and
    with arrays of shapes numpy can combine (goal rows and action reference
    of the sizes of the state and of the action, weights of those sizes or
    of a single element), the dense reward is defined at every control step:
    it is computed against the row of index [min(ctrl_step_counter, len - 1)],
    the last row once the sequence is exhausted. *)
Theorem dense_reward_tracks_clamped_row (s : reward_attrs) (rows : list (list R)) :
  COST s = RL_REWARD ->
  X_GOAL s = TrajTracking rows ->
  rows <> [] ->
  0 <= ctrl_step_counter s ->
  Forall (fun row => length row = length (state s)) rows ->
  length (current_preprocessed_action s) = length (r_U_GOAL s) ->
  np_broadcastable (rew_state_weight s) (state s) ->
  np_broadcastable (rew_act_weight s) (current_preprocessed_action s) ->
  exists row,
    nth_error rows
              (Z.to_nat (Z.min (ctrl_step_counter s) (Z.of_nat (length rows) - 1)))
    = Some row /\
    _get_reward s
    = Ok (FloatReward
            (let rew := (- rl_dist s (np_binop Rminus (state s) row) (act_error s))%R in
             if rew_exponential s then exp rew else rew)).
Proof.
  intros Hc Hg Hne Hk _ _ _ _.
  destruct (rl_goal_row_clamps rows (ctrl_step_counter s) Hne Hk) as (row & Hrow & Hnth).
  exists row. split; [exact Hnth|].
  unfold _get_reward. rewrite Hc, Hg, Hrow. reflexivity.
Qed.

Lemma dense_reward_tracks_clamped_row_witness :
  exists row,
    nth_error [[1; 0]; [2; 0]; [3; 0]]%R
              (Z.to_nat (Z.min 7 (Z.of_nat (length [[1; 0]; [2; 0]; [3; 0]]%R) - 1)))
    = Some row /\
    row = [3; 0]%R /\
    exists r, _get_reward (tracking_attrs RL_REWARD 7 false false) = Ok (FloatReward r).
Proof.
  destruct (dense_reward_tracks_clamped_row
              (tracking_attrs RL_REWARD 7 false false) [[1; 0]; [2; 0]; [3; 0]]%R
              eq_refl eq_refl) as (row & Hnth & Hr).
  - discriminate.
  - simpl. lia.
  - repeat constructor.
  - reflexivity.
  - right. left. reflexivity.
  - left. reflexivity.
  - exists row. split; [exact Hnth|]. split.
    + simpl in Hnth. injection Hnth as <-. reflexivity.
    + eexists. exact Hr.
Defined.

(** X14.  Under trajectory tracking the quadratic reward is defined exactly
    while the control step is within the goal sequence; from the step
    [len(X_GOAL)] on it raises [IndexError]. *)
Theorem quadratic_reward_defined_iff_within_horizon
        (s : reward_attrs) (rows : list (list R)) :
  COST s = QUADRATIC ->
  X_GOAL s = TrajTracking rows ->
  0 <= ctrl_step_counter s ->
  ((exists r, _get_reward s = Ok r) <-> ctrl_step_counter s < Z.of_nat (length rows)) /\
  (Z.of_nat (length rows) <= ctrl_step_counter s -> _get_reward s = Raise IndexError).
Proof.
  intros Hc Hg Hk. split.
  - split.
    + intros (r & Hr).
      destruct (Z.lt_ge_cases (ctrl_step_counter s) (Z.of_nat (length rows))) as [H|H];
        [exact H|].
      rewrite (quadratic_reward_past_horizon s rows Hc Hg H) in Hr. discriminate.
    + intros Hlt. unfold _get_reward. rewrite Hc, Hg. unfold quadratic_goal_row.
      destruct (np_index_in_range rows (ctrl_step_counter s)) as (row & ->); [lia|].
      cbn [bind]. eexists; reflexivity.
  - apply (quadratic_reward_past_horizon s rows Hc Hg).
Qed.

Lemma quadratic_reward_defined_iff_within_horizon_witness :
  (exists r, _get_reward (tracking_attrs QUADRATIC 2 false false) = Ok r) /\
  _get_reward (tracking_attrs QUADRATIC 5 false false) = Raise IndexError.
Proof.
  split.
  - apply (quadratic_reward_defined_iff_within_horizon
             (tracking_attrs QUADRATIC 2 false false) [[1; 0]; [2; 0]; [3; 0]]%R
             eq_refl eq_refl); simpl; lia.
  - apply (quadratic_reward_defined_iff_within_horizon
             (tracking_attrs QUADRATIC 5 false false) [[1; 0]; [2; 0]; [3; 0]]%R
             eq_refl eq_refl); simpl; lia.
Defined.

Section QuadraticFacts.
Local Open Scope R_scope.

Lemma big_sum_nonneg (n : nat) (f : nat -> R) :
  (forall i, (i < n)%nat -> 0 <= f i) -> 0 <= big_sum n f.
Proof.
  induction n as [|n IH]; intros H; simpl; [lra|].
  assert (0 <= big_sum n f) by (apply IH; intros i Hi; apply H; lia).
  assert (0 <= f n) by (apply H; lia). lra.
Qed.

Lemma big_sum_0_below (n : nat) (f : nat -> R) :
  (forall i, (i < n)%nat -> f i = 0) -> big_sum n f = 0.
Proof.
  induction n as [|n IH]; intros H; simpl; [reflexivity|].
  rewrite IH, (H n); [ring | lia |]. intros i Hi. apply H. lia.
Qed.

Lemma big_sum_single (n : nat) (f : nat -> R) (j : nat) :
  (j < n)%nat ->
  (forall i, (i < n)%nat -> i <> j -> f i = 0) ->
  big_sum n f = f j.
Proof.
  induction n as [|n IH]; intros Hj H; [lia|]. simpl.
  destruct (Nat.eq_dec j n) as [-> | Hne].
  - rewrite (big_sum_0_below n f); [ring|]. intros i Hi. apply H; lia.
  - rewrite IH, (H n); [ring | lia | lia | lia |].
    intros i Hi Hij. apply H; lia.
Qed.

End QuadraticFacts.

Section QuadraticRewardFacts.
Local Open Scope R_scope.

Lemma half_quad_diag_nonneg (n : nat) (e : nat -> R) (M : list (list R)) :
  diag_nonneg n M -> 0 <= half_quad n e M.
Proof.
  intros Hd. unfold half_quad. apply big_sum_nonneg. intros j Hj.
  rewrite (big_sum_single n _ j Hj).
  - destruct (Hd j j Hj Hj) as [_ Hjj]. nra.
  - intros i Hi Hij. destruct (Hd i j Hi Hj) as [H0 _]. rewrite (H0 Hij). ring.
Qed.

(** X15.  With weight matrices [Q] and [R] that are diagonal with
    non-negative entries, the cost function is never negative and the
    quadratic reward never positive. *)
Theorem quadratic_reward_nonpositive (s : reward_attrs) (r : R) :
  COST s = QUADRATIC ->
  diag_nonneg (nx (r_QUAD_TYPE s)) (Q_weight s) ->
  diag_nonneg (nu (r_QUAD_TYPE s)) (R_weight s) ->
  _get_reward s = Ok (FloatReward r) ->
  r <= 0 /\
  forall X U Xr Ur,
    0 <= cost_func (r_QUAD_TYPE s) X U Xr Ur (Q_weight s) (R_weight s).
Proof.
  intros Hc HQ HR E.
  assert (Hcost : forall X U Xr Ur,
             0 <= cost_func (r_QUAD_TYPE s) X U Xr Ur (Q_weight s) (R_weight s)).
  { intros X U Xr Ur. unfold cost_func.
    pose proof (half_quad_diag_nonneg _ (fun i => entry X i - entry Xr i) _ HQ).
    pose proof (half_quad_diag_nonneg _ (fun i => entry U i - entry Ur i) _ HR).
    lra. }
  split; [|exact Hcost].
  unfold _get_reward in E. rewrite Hc in E.
  destruct (match X_GOAL s with
            | Stabilization x_goal => Ok x_goal
            | TrajTracking rows => quadratic_goal_row rows (ctrl_step_counter s)
            end) as [x_goal|]; cbn [bind] in E; [|discriminate].
  injection E as <-.
  pose proof (Hcost (state s) (current_preprocessed_action s) x_goal (r_U_GOAL s)). lra.
Qed.

Lemma quadratic_reward_nonpositive_witness :
  exists r, _get_reward (tracking_attrs QUADRATIC 0 false false) = Ok (FloatReward r) /\
            r <= 0.
Proof.
  eexists. split; [reflexivity|].
  refine (proj1 (quadratic_reward_nonpositive
                   (tracking_attrs QUADRATIC 0 false false) _ eq_refl _ _ eq_refl)).
  - intros i j Hi Hj. simpl in Hi, Hj.
    destruct i as [|[|i]], j as [|[|j]]; try lia;
      unfold mentry; simpl; split; try lra; intros H; try reflexivity; congruence.
  - intros i j Hi Hj. simpl in Hi, Hj.
    destruct i as [|i], j as [|j]; try lia.
    unfold mentry; simpl; split; [congruence | lra].
Defined.

(** X16.  The mean-squared error of the info dictionary is never negative;
    under trajectory tracking with a non-empty goal sequence it is defined
    at every control step, against the row of the clamped step index. *)
Theorem info_mse_nonneg (gl : goal) (st w : list R) (k : Z) :
  (forall mse, info_mse gl st k w = Ok mse -> 0 <= mse) /\
  (forall rows, gl = TrajTracking rows -> rows <> [] -> (0 <= k)%Z ->
                exists mse, info_mse gl st k w = Ok mse) /\
  (forall x_goal, gl = Stabilization x_goal ->
                  exists mse, info_mse gl st k w = Ok mse).
Proof.
  assert (Hsq : forall l : list R, 0 <= np_sum (map (fun x => x ^ 2) l)).
  { intros l. apply np_sum_nonneg. apply Forall_forall. intros v Hv.
    apply in_map_iff in Hv as (x & <- & _). nra. }
  unfold info_mse. split; [|split].
  - intros mse.
    destruct gl as [x_goal | rows]; cbn [bind].
    + intros H. injection H as <-. apply Hsq.
    + destruct (rl_goal_row rows k); cbn [bind]; [|discriminate].
      intros H. injection H as <-. apply Hsq.
  - intros rows -> Hne Hk.
    destruct (rl_goal_row_clamps rows k Hne Hk) as (row & -> & _). cbn [bind].
    eexists; reflexivity.
  - intros x_goal ->. cbn [bind]. eexists; reflexivity.
Qed.

End QuadraticRewardFacts.

Lemma info_mse_nonneg_witness :
  exists mse, info_mse (TrajTracking [[1; 0]; [2; 0]; [3; 0]]%R) [3; 1]%R 9 [1; 0]%R = Ok mse /\
              (0 <= mse)%R.
Proof.
  eexists. split; [reflexivity|].
  apply (proj1 (info_mse_nonneg (TrajTracking [[1; 0]; [2; 0]; [3; 0]]%R)
                                [3; 1]%R [1; 0]%R 9)).
  reflexivity.
Defined.

(* ================================================================= *)
(** ** Further properties of the symbolic model *)

Section DynamicsFacts.
Local Open Scope R_scope.

Variable csRotXYZ : R -> R -> R -> mat3.

(** X18.  Without thrust the vehicle is in free fall at every state and
    attitude: the horizontal accelerations are 0 and the vertical one is
    [-g]; the position rates are the velocities. *)
Theorem zero_thrust_is_free_fall (P : quad_params) (X : list R) :
  X_dot csRotXYZ P ONE_D X [0] = [entry X 1; - GRAVITY_ACC P] /\
  X_dot csRotXYZ P TWO_D X [0; 0]
  = [entry X 1; 0; entry X 3; - GRAVITY_ACC P; entry X 5; 0] /\
  (let Xd := X_dot csRotXYZ P THREE_D X [0; 0; 0; 0] in
   entry Xd 0 = entry X 1 /\ entry Xd 1 = 0 /\
   entry Xd 2 = entry X 3 /\ entry Xd 3 = 0 /\
   entry Xd 4 = entry X 5 /\ entry Xd 5 = - GRAVITY_ACC P).
Proof.
  split; [|split].
  - unfold X_dot, entry. simpl. repeat (apply f_equal2); try reflexivity.
    unfold Rdiv. ring.
  - unfold X_dot, entry. simpl. repeat (apply f_equal2); try reflexivity;
      unfold Rdiv; ring.
  - unfold X_dot.
    destruct (csRotXYZ (entry X 6) (entry X 7) (entry X 8)) as [[[[a b] c] [[d f] g]] [[h i] j]].
    unfold entry, mat3_vec, vec3_sub, vec3_div, dot3. simpl.
    repeat split; unfold Rdiv; ring.
Qed.

(** X19.  In the 3D model, with zero body rates the Euler angles do not
    change, at any attitude; if moreover the four rotor thrusts are equal,
    the body rates do not change either.  In the 2D model equal thrusts give
    no pitch acceleration. *)
Theorem balanced_thrust_gives_no_rotation (P : quad_params) (X U : list R) :
  entry X 9 = 0 -> entry X 10 = 0 -> entry X 11 = 0 ->
  (let Xd := X_dot csRotXYZ P THREE_D X U in
   entry Xd 6 = 0 /\ entry Xd 7 = 0 /\ entry Xd 8 = 0 /\
   (entry U 0 = entry U 1 -> entry U 1 = entry U 2 -> entry U 2 = entry U 3 ->
    entry Xd 9 = 0 /\ entry Xd 10 = 0 /\ entry Xd 11 = 0)) /\
  (entry U 0 = entry U 1 -> entry (X_dot csRotXYZ P TWO_D X U) 5 = 0).
Proof.
  intros Hp Hq Hr. unfold entry in *. split.
  - unfold X_dot, entry.
    destruct (csRotXYZ (nth 6 X 0) (nth 7 X 0) (nth 8 X 0))
      as [[[[a b] c] [[d f] g]] [[h i] j]].
    rewrite Hp, Hq, Hr.
    unfold mat3_vec, mat3_mul, vec3_sub, vec3_div, skew, col3, dot3. cbv zeta.
    cbn [nth].
    split; [unfold Rdiv; ring|]. split; [unfold Rdiv; ring|].
    split; [unfold Rdiv; ring|].
    intros H01 H12 H23. rewrite H01, H12, H23. repeat split; unfold Rdiv; ring.
  - intros H. unfold X_dot, entry. cbn [nth]. rewrite H. unfold Rdiv. ring.
Qed.

End DynamicsFacts.

Section GoalFacts.
Local Open Scope R_scope.

Lemma balanced_thrust_gives_no_rotation_witness :
  let X := [0; 0; 0; 0; 1; 0; 1; 2; 3; 0; 0; 0] in
  let Xd := X_dot csRotXYZ_sdf crazyflie THREE_D X [1; 1; 1; 1] in
  entry Xd 6 = 0 /\ entry Xd 9 = 0 /\ entry Xd 10 = 0 /\ entry Xd 11 = 0.
Proof.
  intros X Xd.
  destruct (balanced_thrust_gives_no_rotation csRotXYZ_sdf crazyflie X [1; 1; 1; 1]
              eq_refl eq_refl eq_refl) as [(H6 & _ & _ & H) _].
  destruct (H eq_refl eq_refl eq_refl) as (H9 & H10 & H11).
  repeat split; assumption.
Defined.

(** The goal of the stabilisation task is a hover state. *)
Lemma stabilization_X_GOAL_hover (q : QuadType) (goal x_goal : list R) :
  stabilization_X_GOAL q goal = Ok x_goal ->
  exists x y z, x_goal = hover_state q x y z.
Proof.
  unfold stabilization_X_GOAL. destruct q.
  - destruct (np_index goal 1) as [g1|]; cbn [bind]; [|discriminate].
    intros H. injection H as <-. exists 0, 0, g1. reflexivity.
  - destruct (np_index goal 0) as [g0|]; cbn [bind]; [|discriminate].
    destruct (np_index goal 1) as [g1|]; cbn [bind]; [|discriminate].
    intros H. injection H as <-. exists g0, 0, g1. reflexivity.
  - destruct (np_index goal 0) as [g0|]; cbn [bind]; [|discriminate].
    destruct (np_index goal 1) as [g1|]; cbn [bind]; [|discriminate].
    destruct (np_index goal 2) as [g2|]; cbn [bind]; [|discriminate].
    intros H. injection H as <-. exists g0, g1, g2. reflexivity.
Qed.

(** X20.  At the goal of the stabilisation task, under one and the same
    thrust [T] on every actuator (as [U_GOAL] has), every component of the
    state derivative is 0 except the vertical acceleration, which is the
    total thrust over the mass, minus [g]; [X_GOAL] has the size of the
    state.  [csRotXYZ] is the identity at zero angles. *)
Theorem stabilization_goal_leaves_vertical_acceleration
        (csRotXYZ : R -> R -> R -> mat3) (P : quad_params) (q : QuadType)
        (goal x_goal : list R) (T : R) :
  csRotXYZ 0 0 0 = I3 ->
  stabilization_X_GOAL q goal = Ok x_goal ->
  length x_goal = nx q /\
  (exists c, U_GOAL P q = repeat c (nu q)) /\
  X_dot csRotXYZ P q x_goal (repeat T (nu q))
  = match q with
    | ONE_D => [0; T / MASS P - GRAVITY_ACC P]
    | TWO_D => [0; 0; 0; (T + T) / MASS P - GRAVITY_ACC P; 0; 0]
    | THREE_D => [0; 0; 0; 0; 0; (T + T + T + T) / MASS P - GRAVITY_ACC P;
                  0; 0; 0; 0; 0; 0]
    end.
Proof.
  intros Hrot Hg.
  destruct (stabilization_X_GOAL_hover q goal x_goal Hg) as (x & y & z & ->).
  split; [destruct q; reflexivity|].
  split; [eexists; apply U_GOAL_even_split|].
  destruct q; unfold X_dot, hover_state, entry; simpl.
  - reflexivity.
  - rewrite sin_0, cos_0.
    repeat (apply (f_equal2 (@cons R))); try reflexivity; unfold Rdiv; ring.
  - rewrite Hrot. unfold I3, mat3_mul, mat3_vec, vec3_sub, vec3_div, skew, col3, dot3.
    rewrite sin_0, cos_0, tan_0.
    repeat (apply (f_equal2 (@cons R))); try reflexivity; unfold Rdiv; ring.
Qed.

Lemma stabilization_goal_leaves_vertical_acceleration_witness :
  stabilization_X_GOAL TWO_D [5 / 10; 1] = Ok [5 / 10; 0; 1; 0; 0; 0] /\
  X_dot csRotXYZ_sdf crazyflie TWO_D [5 / 10; 0; 1; 0; 0; 0] (repeat 1 (nu TWO_D))
  = [0; 0; 0; (1 + 1) / MASS crazyflie - GRAVITY_ACC crazyflie; 0; 0].
Proof.
  assert (E : stabilization_X_GOAL TWO_D [5 / 10; 1] = Ok [5 / 10; 0; 1; 0; 0; 0])
    by reflexivity.
  split; [exact E|].
  exact (proj2 (proj2 (stabilization_goal_leaves_vertical_acceleration
                         csRotXYZ_sdf crazyflie TWO_D [5 / 10; 1] _ 1
                         csRotXYZ_sdf_0 E))).
Defined.

(** X21.  The stabilisation goal is built exactly when the configured goal
    has enough entries (two for the 1D and 2D vehicles, three for the 3D
    one); otherwise the construction raises [IndexError], as for the 3D
    vehicle with a goal of two entries. *)
Theorem stabilization_goal_needs_enough_entries (q : QuadType) (goal : list R) :
  ((exists x_goal, stabilization_X_GOAL q goal = Ok x_goal) <->
   (match q with THREE_D => 3 | _ => 2 end <= length goal)%nat) /\
  ((length goal < match q with THREE_D => 3 | _ => 2 end)%nat ->
   stabilization_X_GOAL q goal = Raise IndexError).
Proof.
  unfold stabilization_X_GOAL.
  destruct (np_index_dec goal 0) as [(R0 & g0 & E0) | (R0 & E0)];
    destruct (np_index_dec goal 1) as [(R1 & g1 & E1) | (R1 & E1)];
    destruct (np_index_dec goal 2) as [(R2 & g2 & E2) | (R2 & E2)];
    rewrite ?E0, ?E1, ?E2; destruct q; cbn [bind];
    (split; [split; [intros (x & H); try discriminate H; lia
                    | intros H; try lia; eexists; reflexivity]
            | intros H; try lia; reflexivity]).
Qed.

Lemma stabilization_goal_needs_enough_entries_witness :
  stabilization_X_GOAL THREE_D [0; 1] = Raise IndexError /\
  exists x_goal, stabilization_X_GOAL ONE_D [0; 1] = Ok x_goal.
Proof.
  split.
  - apply (stabilization_goal_needs_enough_entries THREE_D [0; 1]). simpl. lia.
  - apply (stabilization_goal_needs_enough_entries ONE_D [0; 1]). simpl. lia.
Defined.

End GoalFacts.

Section TrackingAndActionFacts.
Local Open Scope R_scope.

(** X22.  The goal sequence of the tracking task has one row per sample,
    every row has the size of the state, and its angle and body-rate entries
    are 0; with unequal numbers of position and velocity samples the
    construction raises [ValueError]. *)
Theorem tracking_goal_shape (q : QuadType) (POS_REF VEL_REF : list (R * R * R)) :
  (length POS_REF = length VEL_REF ->
   exists rows,
     tracking_X_GOAL q POS_REF VEL_REF = Ok rows /\
     length rows = length POS_REF /\
     Forall (fun row =>
               length row = nx q /\
               forall i, (match q with ONE_D => 2 | TWO_D => 4 | THREE_D => 6 end <= i)%nat ->
                         entry row i = 0) rows) /\
  (length POS_REF <> length VEL_REF ->
   tracking_X_GOAL q POS_REF VEL_REF = Raise ValueError).
Proof.
  unfold tracking_X_GOAL. split.
  - intros Hlen. rewrite Hlen, Nat.eqb_refl. eexists. split; [reflexivity|].
    split; [rewrite length_map, length_combine, Hlen; apply Nat.min_id|].
    apply Forall_forall. intros row Hrow.
    apply in_map_iff in Hrow as ([[[px py] pz] [[vx vy] vz]] & <- & _).
    destruct q; (split; [reflexivity|]); intros i Hi; unfold entry;
      do 12 (destruct i as [|i]; try lia; try reflexivity);
      simpl; destruct i; reflexivity.
  - intros Hne. apply Nat.eqb_neq in Hne. rewrite Hne. reflexivity.
Qed.

Lemma tracking_goal_shape_witness :
  exists rows,
    tracking_X_GOAL TWO_D [(1, 0, 1); (2, 0, 1)] [(1, 0, 0); (1, 0, 0)] = Ok rows /\
    length rows = 2%nat /\
    tracking_X_GOAL TWO_D [(1, 0, 1); (2, 0, 1)] [(1, 0, 0)] = Raise ValueError.
Proof.
  destruct (tracking_goal_shape TWO_D [(1, 0, 1); (2, 0, 1)] [(1, 0, 0); (1, 0, 0)])
    as [H _].
  destruct (H eq_refl) as (rows & E & L & _).
  exists rows. split; [exact E|]. split; [exact L|].
  apply (tracking_goal_shape TWO_D [(1, 0, 1); (2, 0, 1)] [(1, 0, 0)]).
  simpl. lia.
Defined.

Lemma np_binop_zip (f : R -> R -> R) (a b : list R) :
  length a = length b ->
  np_binop f a b = map (fun p : R * R => f (fst p) (snd p)) (combine a b).
Proof.
  intros H.
  destruct a as [|x [|x' a]]; destruct b as [|y [|y' b]]; try discriminate H;
    reflexivity.
Qed.

(** The entries of a clipped array. *)
Lemma np_clip_nth (a low high : list R) :
  length a = length low -> length a = length high ->
  length (np_clip a low high) = length a /\
  forall i t, nth_error (np_clip a low high) i = Some t ->
              exists x l h, nth_error a i = Some x /\ nth_error low i = Some l /\
                            nth_error high i = Some h /\ t = Rmin (Rmax x l) h.
Proof.
  intros Hl Hh. unfold np_clip.
  rewrite (np_binop_zip Rmax a low Hl).
  assert (Hlen : length (map (fun p : R * R => Rmax (fst p) (snd p)) (combine a low))
                 = length a).
  { rewrite length_map, length_combine, <- Hl. apply Nat.min_id. }
  rewrite np_binop_zip by congruence.
  split.
  - rewrite length_map, length_combine, Hlen, <- Hh. apply Nat.min_id.
  - clear Hlen. revert low high Hl Hh.
    induction a as [|x a IH]; intros [|l low] [|h high] Hl Hh i t;
      try discriminate; simpl.
    + destruct i; discriminate.
    + destruct i as [|i]; simpl.
      * intros H. injection H as <-. exists x, l, h. auto.
      * apply IH; [now injection Hl | now injection Hh].
Qed.

(** X23.  Direct thrust control: the thrust kept as
    [current_preprocessed_action] has one entry per actuator, each within
    the bounds of the action space (when [low <= high]), and an action that
    is already within the bounds is kept as it is. *)
Theorem direct_thrust_is_clipped (low high action : list R) (scale : R) :
  length action = length low ->
  length action = length high ->
  let thrust := _preprocess_control (DirectThrust low high) scale action in
  length thrust = length action /\
  (forall i t l h,
      nth_error thrust i = Some t -> nth_error low i = Some l ->
      nth_error high i = Some h -> l <= h -> l <= t <= h) /\
  (forall i t x l h,
      nth_error thrust i = Some t -> nth_error action i = Some x ->
      nth_error low i = Some l -> nth_error high i = Some h ->
      l <= x <= h -> t = x).
Proof.
  intros Hl Hh thrust. unfold thrust, _preprocess_control.
  destruct (np_clip_nth action low high Hl Hh) as (Hlen & Hnth).
  split; [exact Hlen|]. split.
  - intros i t l h Ht Hlo Hhi Hle.
    destruct (Hnth i t Ht) as (x & l' & h' & _ & Hl' & Hh' & ->).
    assert (l' = l) by congruence. assert (h' = h) by congruence. subst.
    unfold Rmin, Rmax.
    destruct (Rle_dec x l); destruct (Rle_dec _ h); lra.
  - intros i t x l h Ht Hx Hlo Hhi Hin.
    destruct (Hnth i t Ht) as (x' & l' & h' & Hx' & Hl' & Hh' & ->).
    assert (x' = x) by congruence. assert (l' = l) by congruence.
    assert (h' = h) by congruence. subst.
    unfold Rmin, Rmax.
    destruct (Rle_dec x l); destruct (Rle_dec _ h); lra.
Qed.

Lemma direct_thrust_is_clipped_witness :
  let thrust := _preprocess_control (DirectThrust [0; 0] [1; 1]) 0 [2; -1] in
  length thrust = 2%nat /\
  forall t, nth_error thrust 0 = Some t -> 0 <= t <= 1.
Proof.
  intros thrust.
  destruct (direct_thrust_is_clipped [0; 0] [1; 1] [2; -1] 0 eq_refl eq_refl)
    as (Hlen & Hin & _).
  split; [exact Hlen|].
  intros t Ht. apply (Hin 0%nat t 0 1 Ht eq_refl eq_refl). lra.
Defined.



End TrackingAndActionFacts.

(* ================================================================= *)
(** ** Properties of the observation space and of the observed state *)

Lemma length_concat_repeat {A : Type} (l : list A) (n : nat) :
  length (concat (repeat l n)) = (n * length l)%nat.
Proof.
  induction n as [|n IH]; simpl; [reflexivity|].
  rewrite length_app, IH. reflexivity.
Qed.

Lemma state_bounds_length (G : float) (q : QuadType) :
  length (state_low G q) = nx q /\ length (state_high q) = nx q.
Proof. destruct q; split; reflexivity. Qed.

(** X25.  The bounds of the state space have the size of the state; those
    of the observation space are repeated [1 + obs_goal_horizon] times under
    the dense reward with trajectory tracking and a positive horizon, twice
    under the dense reward with stabilisation and a positive horizon, and
    once otherwise.  The dimensions the out-of-bound mask leaves out are
    bounded by plus and minus the largest single-precision float. *)
Theorem observation_space_shape (float32 : float -> float) (G : float)
        (q : QuadType) (c : Cost) (t : Task) (obs_goal_horizon : Z) :
  let copies :=
    match c, t with
    | RL_REWARD, TRAJ_TRACKING =>
        if 0 <? obs_goal_horizon then Z.to_nat (1 + obs_goal_horizon) else 1%nat
    | RL_REWARD, STABILIZATION => if 0 <? obs_goal_horizon then 2%nat else 1%nat
    | _, _ => 1%nat
    end in
  length (fst (state_space float32 G q)) = nx q /\
  length (snd (state_space float32 G q)) = nx q /\
  length (fst (observation_space float32 G q c t obs_goal_horizon)) = (copies * nx q)%nat /\
  length (snd (observation_space float32 G q c t obs_goal_horizon)) = (copies * nx q)%nat /\
  forall i, nth_error (mask q) i = Some 0 ->
            nth_error (fst (state_space float32 G q)) i = Some (float32 (- float32_max)%float) /\
            nth_error (snd (state_space float32 G q)) i = Some (float32 float32_max).
Proof.
  intros copies. destruct (state_bounds_length G q) as [Hl Hh].
  unfold state_space. cbn [fst snd]. rewrite !length_map.
  split; [exact Hl|]. split; [exact Hh|].
  assert (Hobs : length (fst (observation_space float32 G q c t obs_goal_horizon))
                 = (copies * nx q)%nat /\
                 length (snd (observation_space float32 G q c t obs_goal_horizon))
                 = (copies * nx q)%nat).
  { unfold observation_space, copies.
    destruct c, t; destruct (0 <? obs_goal_horizon); cbn [andb negb fst snd];
      rewrite !length_map, ?length_concat_repeat, ?Hl, ?Hh; split; lia. }
  split; [apply Hobs|]. split; [apply Hobs|].
  intros i Hi.
  destruct q; simpl in Hi;
    do 12 (destruct i as [|i]; simpl in Hi; try discriminate Hi;
           try (split; reflexivity));
    destruct i; discriminate.
Qed.

Lemma observation_space_shape_witness :
  length (fst (observation_space (fun x => x) 0%float TWO_D RL_REWARD TRAJ_TRACKING 2))
  = 18%nat /\
  nth_error (snd (state_space (fun x => x) 0%float TWO_D)) 1 = Some float32_max.
Proof.
  destruct (observation_space_shape (fun x => x) 0%float TWO_D RL_REWARD TRAJ_TRACKING 2)
    as (_ & _ & H & _ & Hm).
  split; [exact H|]. exact (proj2 (Hm 1%nat eq_refl)).
Defined.

(** X26.  From a drone state vector of 20 entries (and, for the 3D vehicle,
    a body-frame angular velocity of 3 entries) [_get_observation] builds a
    state of the size of the fidelity level, on which [_get_done], with the
    bounds of [_set_observation_space], returns a flag. *)
Theorem get_done_defined_on_observed_state
        (float32 : float -> float) (G : float) (q : QuadType)
        (full_state ang_v_body_frame : list float)
        (oob on_collision on_completion collided completed : bool) :
  length full_state = 20%nat ->
  length ang_v_body_frame = 3%nat ->
  exists st,
    observed_state q full_state ang_v_body_frame = Some st /\
    length st = nx q /\
    exists b, _get_done (done_attrs_of q oob on_collision on_completion st
                                       (state_space float32 G q) collided completed)
              = Some b.
Proof.
  intros Hf Hb.
  assert (Hst : exists st, observed_state q full_state ang_v_body_frame = Some st /\
                           length st = nx q).
  { do 20 (destruct full_state as [|? full_state]; [discriminate Hf|]).
    do 3 (destruct ang_v_body_frame as [|? ang_v_body_frame]; [discriminate Hb|]).
    destruct full_state; [|discriminate Hf].
    destruct ang_v_body_frame; [|discriminate Hb].
    destruct q; eexists; split; reflexivity. }
  destruct Hst as (st & Hst & Hlen). exists st. split; [exact Hst|]. split; [exact Hlen|].
  set (s := done_attrs_of q oob on_collision on_completion st
                          (state_space float32 G q) collided completed).
  assert (Hshape : done_shapes s).
  { destruct (state_bounds_length G q) as [Hl Hh].
    unfold done_shapes, s, done_attrs_of, state_space. cbn.
    rewrite !length_map. auto. }
  destruct (out_of_bound_spec s Hshape) as (b & Hb' & _).
  unfold _get_done. rewrite Hb'.
  destruct (d_done_on_out_of_bound s); [destruct b|]; eexists; reflexivity.
Qed.

Lemma get_done_defined_on_observed_state_witness :
  let full := [0; 0; 3; 0; 0; 0; 1; 0; 0; 0; 0; 0; 1; 0; 0; 0; 0; 0; 0; 0]%float in
  observed_state ONE_D full [0; 0; 0]%float = Some [3; 1]%float /\
  _get_done (done_attrs_of ONE_D true false false [3; 1]%float
                           (state_space (fun x => x) 0%float ONE_D) false false)
  = Some true /\
  exists st, observed_state ONE_D full [0; 0; 0]%float = Some st /\ length st = nx ONE_D.
Proof.
  intros full. split; [reflexivity|]. split; [reflexivity|].
  destruct (get_done_defined_on_observed_state (fun x => x) 0%float ONE_D full
              [0; 0; 0]%float true false false false false eq_refl eq_refl)
    as (st & H1 & H2 & _).
  exists st. split; assumption.
Defined.

(* ================================================================= *)
(** ** Properties of the weights of the info dictionary, and of the
       fidelity levels taken together *)

(** X27.  The weight of the mean-squared error, once [__init__] accepts it,
    has the size of the state; an argument of another size is refused with
    [ValueError]. *)
Theorem info_mse_weight_has_state_size (q : QuadType) (arg : option (list R)) :
  (forall w, init_info_mse_metric_state_weight q arg = Ok w -> length w = nx q) /\
  (forall w, arg = Some w -> length w <> nx q ->
             init_info_mse_metric_state_weight q arg = Raise ValueError).
Proof.
  unfold init_info_mse_metric_state_weight. split.
  - intros w. destruct arg as [w'|].
    + destruct (Nat.eqb (length w') (nx q)) eqn:E; [|discriminate].
      intros H. injection H as <-. now apply Nat.eqb_eq.
    + intros H. injection H as <-. destruct q; reflexivity.
  - intros w -> Hne. apply Nat.eqb_neq in Hne. rewrite Hne. reflexivity.
Qed.

Lemma info_mse_weight_has_state_size_witness :
  init_info_mse_metric_state_weight TWO_D (Some [1; 1]%R) = Raise ValueError /\
  exists w, init_info_mse_metric_state_weight TWO_D None = Ok w /\ length w = 6%nat.
Proof.
  split.
  - apply (proj2 (info_mse_weight_has_state_size TWO_D (Some [1; 1]%R)) [1; 1]%R eq_refl).
    simpl. lia.
  - eexists. split; [reflexivity|].
    apply (proj1 (info_mse_weight_has_state_size TWO_D None)). reflexivity.
Defined.

(** X28.  The planar model restricted to the vertical is the 1D model: with
    zero pitch the 2D vehicle has no horizontal acceleration, and its height
    and vertical velocity change as those of the 1D vehicle under the total
    thrust [T1 + T2]. *)
Theorem planar_model_reduces_to_vertical (csRotXYZ : R -> R -> R -> mat3)
        (P : quad_params) (x x_dot z z_dot theta_dot T1 T2 : R) :
  let Xd2 := X_dot csRotXYZ P TWO_D [x; x_dot; z; z_dot; 0; theta_dot]%R [T1; T2] in
  let Xd1 := X_dot csRotXYZ P ONE_D [z; z_dot] [(T1 + T2)%R] in
  entry Xd2 1 = 0%R /\
  entry Xd2 2 = entry Xd1 0 /\
  entry Xd2 3 = entry Xd1 1.
Proof.
  unfold X_dot, entry. cbn [nth]. rewrite sin_0, cos_0.
  repeat split; unfold Rdiv; ring.
Qed.
